(** * StoreProxy: the [api/savedata.js] request handler

    A shallow embedding of the serverless handler that reads and writes one
    JSON file of a GitHub repository through the GitHub Content API, and the
    properties of its request/response behaviour.

    Conventions of the embedding
    - a JavaScript string is the sequence of its UTF-8 bytes ([string]);
    - a JSON value is a [json] tree; a number is held as the text that
      [Number::toString] gives for it ("3", "-1.5", "1e+21"; both zeros
      are "0"), which is all the handler ever does with a number; an
      object lists its properties in enumeration order, each name once;
    - [undefined] is [None] at the types [option string], [option json];
    - [process.env] and [req.query] are finite maps ([gmap string _]);
    - an [await fetch(...)] is a node of the interaction tree [io]: the
      handler hands out a request and continues with whatever the remote
      side answers (a response, or a rejected promise);
    - a thrown exception is the [Throw] case of [result];
    - [console.error] writes to the operator's log only and is not part of
      the model. *)

From Stdlib Require Import ZArith NArith Ascii String List.
From stdpp Require Import base strings gmap.

Local Set Warnings "-register-all".

Local Open Scope Z_scope.
Local Open Scope string_scope.
Local Open Scope list_scope.

(** ** JSON values *)

Inductive json : Type :=
| JNull
| JBool (b : bool)
| JNum (repr : string)
| JStr (s : string)
| JArr (items : list json)
| JObj (props : list (string * json)).

(** Either a value or a thrown exception carrying [err.message]. *)
Inductive result (A : Type) : Type :=
| Ok (a : A)
| Throw (msg : string).
Arguments Ok {A} a.
Arguments Throw {A} msg.

(** JavaScript truthiness, on strings that may be [undefined] and on JSON
    values that may be [undefined]. *)
Definition truthy_str (o : option string) : bool :=
  match o with
  | Some (String _ _) => true
  | _ => false
  end.

Definition truthy (o : option json) : bool :=
  match o with
  | None | Some JNull | Some (JBool false) | Some (JStr "") => false
  | Some (JNum repr) => negb (String.eqb repr "0")
  | Some _ => true
  end.

(** [a || d] on strings. *)
Definition or_default (o : option string) (d : string) : string :=
  match o with
  | Some (String c s) => String c s
  | _ => d
  end.

(** A value spliced into a template literal. *)
Definition template (o : option string) : string :=
  match o with
  | Some s => s
  | None => "undefined"
  end.

(** Own property of an object in enumeration order. *)
Fixpoint assoc (k : string) (props : list (string * json)) : option json :=
  match props with
  | [] => None
  | (k', v) :: rest => if String.eqb k k' then Some v else assoc k rest
  end.

(** [v.k] for a name [k] that no prototype defines (such as [sha]): reading
    a property of [null] throws, of any other non-object gives [undefined]. *)
Definition get_prop (v : json) (k : string) : result (option json) :=
  match v with
  | JNull => Throw ("Cannot read properties of null (reading '" +:+ k +:+ "')")
  | JObj props => Ok (assoc k props)
  | _ => Ok None
  end.

(** The own property [k] of a value, [None] when it has none. *)
Definition field (v : json) (k : string) : option json :=
  match v with
  | JObj props => assoc k props
  | _ => None
  end.

Definition has_field (v : json) (k : string) : bool := bool_decide (is_Some (field v k)).

(** ** [JSON.stringify] *)

Definition dquote : ascii := "034"%char.
Definition newline : ascii := "010"%char.

Definition hex_digit (upper : bool) (n : N) : ascii :=
  if (n <? 10)%N then ascii_of_N (48 + n)
  else ascii_of_N ((if upper then 55 else 87) + n).

(** The escape of one code unit inside a JSON string literal. *)
Definition quote_char (c : ascii) : string :=
  let n := N_of_ascii c in
  if (n =? 8)%N then "\b"
  else if (n =? 9)%N then "\t"
  else if (n =? 10)%N then "\n"
  else if (n =? 12)%N then "\f"
  else if (n =? 13)%N then "\r"
  else if (n =? 34)%N then String "\" (String dquote "")
  else if (n =? 92)%N then "\\"
  else if (n <? 32)%N then
    "\u00" +:+ String (hex_digit false (n / 16)) (String (hex_digit false (n mod 16)) "")
  else String c "".

Fixpoint quote_chars (s : string) : string :=
  match s with
  | "" => ""
  | String c rest => quote_char c +:+ quote_chars rest
  end.

Definition QuoteJSONString (s : string) : string :=
  String dquote (quote_chars s +:+ String dquote "").

Fixpoint join (sep : string) (parts : list string) : string :=
  match parts with
  | [] => ""
  | [p] => p
  | p :: rest => p +:+ sep +:+ join sep rest
  end.

(** The bracketed rendering shared by arrays and objects: [stepback] is the
    indentation of the enclosing level, [indent] that of the members. *)
Definition wrap (open close gap stepback indent : string) (partial : list string) : string :=
  match partial with
  | [] => open +:+ close
  | _ =>
    if String.eqb gap "" then open +:+ join "," partial +:+ close
    else open +:+ String newline indent +:+ join ("," +:+ String newline indent) partial
         +:+ String newline stepback +:+ close
  end.

Fixpoint SerializeJSONProperty (gap indent : string) (v : json) : string :=
  match v with
  | JNull => "null"
  | JBool true => "true"
  | JBool false => "false"
  | JNum repr => repr
  | JStr s => QuoteJSONString s
  | JArr items =>
    wrap "[" "]" gap indent (indent +:+ gap)
      (map (SerializeJSONProperty gap (indent +:+ gap)) items)
  | JObj props =>
    wrap "{" "}" gap indent (indent +:+ gap)
      (map (fun kv =>
              QuoteJSONString (fst kv) +:+ ":" +:+ (if String.eqb gap "" then "" else " ")
              +:+ SerializeJSONProperty gap (indent +:+ gap) (snd kv)) props)
  end.

(** [JSON.stringify(v, null, n)] for a space count [n], and
    [JSON.stringify(v)] as the case [n = 0]; [undefined] serialises to
    [undefined]. *)
Definition spaces (n : nat) : string := string_of_list_ascii (repeat " "%char n).

Definition JSON_stringify (v : option json) (n : nat) : option string :=
  match v with
  | Some j => Some (SerializeJSONProperty (spaces (Nat.min n 10)) "" j)
  | None => None
  end.

(** ** [Buffer.from(s).toString('base64')] *)

Definition base64_alphabet : list ascii :=
  list_ascii_of_string "ABCDEFGHIJKLMNOPQRSTUVWXYZabcdefghijklmnopqrstuvwxyz0123456789+/".

Definition base64_char (n : N) : ascii := nth (N.to_nat n) base64_alphabet "="%char.

(** Three bytes make one 24-bit group, read as four 6-bit digits; a last
    group of one or two bytes is padded with [=]. *)
Fixpoint base64_groups (bytes : list N) : list ascii :=
  match bytes with
  | [] => []
  | [a] =>
    let n := (a * 65536)%N in
    [base64_char (n / 262144); base64_char ((n / 4096) mod 64); "="%char; "="%char]
  | [a; b] =>
    let n := (a * 65536 + b * 256)%N in
    [base64_char (n / 262144); base64_char ((n / 4096) mod 64);
     base64_char ((n / 64) mod 64); "="%char]
  | a :: b :: c :: rest =>
    let n := (a * 65536 + b * 256 + c)%N in
    base64_char (n / 262144) :: base64_char ((n / 4096) mod 64)
    :: base64_char ((n / 64) mod 64) :: base64_char (n mod 64)
    :: base64_groups rest
  end.

(** The UTF-8 bytes of a string. *)
Definition bytes_of (s : string) : list N := map N_of_ascii (list_ascii_of_string s).

(** [Buffer.from(s)]: the UTF-8 bytes of a string; anything but a string
    (here: [undefined]) is a [TypeError]. *)
Definition Buffer_from (s : option string) : result (list N) :=
  match s with
  | Some s => Ok (bytes_of s)
  | None =>
    Throw ("The first argument must be of type string or an instance of Buffer, "
           +:+ "ArrayBuffer, or Array or an Array-like Object. Received undefined")
  end.

Definition toString_base64 (buf : list N) : string :=
  string_of_list_ascii (base64_groups buf).

(** The inverse reading of base64 text, used to state what an encoded
    content stands for. *)
Fixpoint index_of (c : ascii) (l : list ascii) (i : N) : option N :=
  match l with
  | [] => None
  | x :: rest => if Ascii.eqb c x then Some i else index_of c rest (N.succ i)
  end.

Definition base64_digit (c : ascii) : option N := index_of c base64_alphabet 0.

Fixpoint base64_bytes (cs : list ascii) : option (list N) :=
  match cs with
  | [] => Some []
  | c0 :: c1 :: c2 :: c3 :: rest =>
    d0 ← base64_digit c0;
    d1 ← base64_digit c1;
    if Ascii.eqb c2 "=" then
      match rest with
      | [] => if Ascii.eqb c3 "=" then Some [(d0 * 4 + d1 / 16)%N] else None
      | _ => None
      end
    else
      d2 ← base64_digit c2;
      if Ascii.eqb c3 "=" then
        match rest with
        | [] => Some [(d0 * 4 + d1 / 16)%N; ((d1 mod 16) * 16 + d2 / 4)%N]
        | _ => None
        end
      else
        d3 ← base64_digit c3;
        tail ← base64_bytes rest;
        Some ((d0 * 4 + d1 / 16)%N :: ((d1 mod 16) * 16 + d2 / 4)%N
              :: ((d2 mod 4) * 64 + d3)%N :: tail)
  | _ => None
  end.

Definition base64_decode (s : string) : option string :=
  bytes ← base64_bytes (list_ascii_of_string s);
  Some (string_of_list_ascii (map ascii_of_N bytes)).

(** ** [encodeURIComponent] *)

Definition uri_unreserved (c : ascii) : bool :=
  let n := N_of_ascii c in
  ((65 <=? n) && (n <=? 90))%N || ((97 <=? n) && (n <=? 122))%N
  || ((48 <=? n) && (n <=? 57))%N
  || bool_decide (c ∈ list_ascii_of_string "-_.!~*'()").

Definition percent_encode (c : ascii) : string :=
  let n := N_of_ascii c in
  String "%" (String (hex_digit true (n / 16)) (String (hex_digit true (n mod 16)) "")).

Fixpoint encodeURIComponent (s : string) : string :=
  match s with
  | "" => ""
  | String c rest =>
    (if uri_unreserved c then String c "" else percent_encode c) +:+ encodeURIComponent rest
  end.

(** ** The HTTP objects the handler touches *)

(** What [fetch(url, init)] is called with. *)
Record fetch_request : Type := mkFetch {
  rq_method : string;
  rq_url : string;
  rq_headers : list (string * string);
  rq_body : option string
}.

(** A fetch [Response]: the status line and the body text. *)
Record fetch_response : Type := mkResponse {
  status : Z;
  statusText : string;
  text : string
}.

(** [r.ok]: the status is in the range 200-299. *)
Definition ok (r : fetch_response) : bool :=
  ((200 <=? status r) && (status r <=? 299))%Z.

(** An awaited fetch either resolves to a response or rejects (network
    failure) with an error message. *)
Inductive fetch_outcome : Type :=
| Fulfilled (r : fetch_response)
| Rejected (msg : string).

(** A query value: a string, or an array when the name is repeated. *)
Inductive qvalue : Type :=
| QStr (s : string)
| QArr (l : list string).

(** The inbound request: [req.method], [req.query], [req.body]. *)
Record request : Type := mkRequest {
  method : string;
  query : option (gmap string qvalue);
  body : option json
}.

(** The response object [res], as left by the handler. *)
Record response : Type := mkRes {
  statusCode : Z;
  headers : gmap string string;
  sent : option json
}.

Definition fresh_res : response := mkRes 200 ∅ None.

Definition res_setHeader (name value : string) (res : response) : response :=
  mkRes (statusCode res) (<[name := value]> (headers res)) (sent res).

Definition res_status (code : Z) (res : response) : response :=
  mkRes code (headers res) (sent res).

Definition res_json (v : json) (res : response) : response :=
  mkRes (statusCode res) (headers res) (Some v).

(** ** Awaiting and throwing *)

Inductive io (A : Type) : Type :=
| Ret (a : A)
| Await (rq : fetch_request) (k : fetch_outcome -> io A).
Arguments Ret {A} a.
Arguments Await {A} rq k.

(** A computation inside the [try] block: it may await, and ends in a
    value or in a thrown exception. *)
Definition js (A : Type) : Type := io (result A).

Definition js_ret {A} (a : A) : js A := Ret (Ok a).

Definition js_lift {A} (r : result A) : js A := Ret r.

Fixpoint js_bind {A B} (m : js A) (f : A -> js B) : js B :=
  match m with
  | Ret (Ok a) => f a
  | Ret (Throw e) => Ret (Throw e)
  | Await rq k => Await rq (fun o => js_bind (k o) f)
  end.

Notation "x <- m ;; k" := (js_bind m (fun x => k))
  (at level 100, m at next level, right associativity).

(** [try { m } catch (err) { h err.message }] *)
Fixpoint try_catch {A} (m : js A) (h : string -> io A) : io A :=
  match m with
  | Ret (Ok a) => Ret a
  | Ret (Throw e) => h e
  | Await rq k => Await rq (fun o => try_catch (k o) h)
  end.

(** [await fetch(url, init)] *)
Definition fetch (rq : fetch_request) : js fetch_response :=
  Await rq (fun o =>
    match o with
    | Fulfilled r => Ret (Ok r)
    | Rejected msg => Ret (Throw msg)
    end).

(** The remote side: it answers each call knowing all the calls made so far
    (the last element of the list is the call being answered). *)
Definition remote : Type := list fetch_request -> fetch_outcome.

(** Running a computation against a remote side gives its value and the
    outbound calls in the order they were issued. *)
Fixpoint run {A} (world : remote) (calls : list fetch_request) (p : io A)
  : A * list fetch_request :=
  match p with
  | Ret a => (a, calls)
  | Await rq k => run world (calls ++ [rq]) (k (world (calls ++ [rq])))
  end.

(** ** The handler *)

(** [req.query?.message], and
    [req.query?.message || 'Update data.json via app']. *)
Definition query_message (q : option (gmap string qvalue)) : option qvalue :=
  q ≫= (λ m, m !! "message").

Definition commit_message (q : option (gmap string qvalue)) : json :=
  match query_message q with
  | Some (QStr (String c s)) => JStr (String c s)
  | Some (QArr l) => JArr (map JStr l)
  | _ => JStr "Update data.json via app"
  end.

(** The object literal [putBody], followed by [if (sha) putBody.sha = sha]. *)
Definition putBody (message : json) (b64 branch : string) (sha : option json) : json :=
  let fields := [("message", message); ("content", JStr b64); ("branch", JStr branch)] in
  match sha with
  | Some s => if truthy sha then JObj (fields ++ [("sha", s)]) else JObj fields
  | None => JObj fields
  end.

Definition filePath_of (env : gmap string string) : string :=
  or_default (env !! "GITHUB_FILE_PATH") "data.json".

Definition branch_of (env : gmap string string) : string :=
  or_default (env !! "BRANCH") "main".

(** [putUrl], and [apiBase] which adds the branch as [ref]. *)
Definition putUrl (env : gmap string string) : string :=
  "https://api.github.com/repos/" +:+ template (env !! "GITHUB_REPO") +:+ "/contents/"
  +:+ encodeURIComponent (filePath_of env).

Definition apiBase (env : gmap string string) : string :=
  putUrl env +:+ "?ref=" +:+ encodeURIComponent (branch_of env).

Definition authorization (env : gmap string string) : string * string :=
  ("Authorization", "token " +:+ template (env !! "GITHUB_TOKEN")).

(** The three outbound calls of the source. *)
Definition content_fetch (env : gmap string string) : fetch_request :=
  mkFetch "GET" (apiBase env)
    [authorization env; ("Accept", "application/vnd.github.v3.raw")] None.

Definition metadata_fetch (env : gmap string string) : fetch_request :=
  mkFetch "GET" (apiBase env)
    [authorization env; ("Accept", "application/vnd.github.v3+json")] None.

Definition put_fetch (env : gmap string string) (pb : json) : fetch_request :=
  mkFetch "PUT" (putUrl env)
    [authorization env; ("Accept", "application/vnd.github.v3+json");
     ("Content-Type", "application/json")]
    (JSON_stringify (Some pb) 0).

Definition saved_message : string := "âœ… Data saved to GitHub".

Section Handler.

(** [JSON.parse] of the runtime: the value a text stands for, or a thrown
    [SyntaxError]. *)
Variable JSON_parse : string -> result json.

(** [await r.json()] *)
Definition response_json (r : fetch_response) : js json := js_lift (JSON_parse (text r)).

(** The [GET] branch: one fetch of the raw file, its status relayed on
    failure, its text parsed (or wrapped as [raw]) on success. *)
Definition handle_get (env : gmap string string) (res : response) : js response :=
  r <- fetch (content_fetch env) ;;
  if negb (ok r) then
    js_ret (res_json (JObj [("error", JStr "GitHub GET failed"); ("status", JStr (statusText r))])
                     (res_status (status r) res))
  else
    let text := text r in
    match JSON_parse text with
    | Ok obj => js_ret (res_json obj (res_status 200 res))
    | Throw _ => js_ret (res_json (JObj [("raw", JStr text)]) (res_status 200 res))
    end.

(** The [POST] branch: the metadata fetch for the current [sha], then the
    PUT of the new content. *)
Definition handle_post (env : gmap string string) (req : request) (res : response)
  : js response :=
  let body := body req in
  metaR <- fetch (metadata_fetch env) ;;
  if negb (ok metaR) then
    js_ret (res_json (JObj [("error", JStr "Could not fetch file metadata");
                            ("status", JStr (statusText metaR))])
                     (res_status (status metaR) res))
  else
    meta <- response_json metaR ;;
    sha <- js_lift (get_prop meta "sha") ;;
    let contentStr := JSON_stringify body 2 in
    buf <- js_lift (Buffer_from contentStr) ;;
    let b64 := toString_base64 buf in
    let pb := putBody (commit_message (query req)) b64 (branch_of env) sha in
    putR <- fetch (put_fetch env pb) ;;
    j <- response_json putR ;;
    if negb (ok putR) then
      js_ret (res_json (JObj [("error", JStr "GitHub PUT failed"); ("detail", j)])
                       (res_status (status putR) res))
    else
      js_ret (res_json (JObj [("message", JStr saved_message); ("result", j)])
                       (res_status 200 res)).

(** [handler(req, res)], with [process.env] as [env]: the configuration
    guard, then the [try] block branching on the method, and its [catch]. *)
Definition handler (env : gmap string string) (req : request) (res : response)
  : io response :=
  let token := env !! "GITHUB_TOKEN" in
  let repo := env !! "GITHUB_REPO" in
  if negb (truthy_str token) || negb (truthy_str repo) then
    Ret (res_json
           (JObj [("error", JStr "Missing GITHUB_TOKEN or GITHUB_REPO environment variables")])
           (res_status 500 res))
  else
    try_catch
      (if String.eqb (method req) "GET" then handle_get env res
       else if String.eqb (method req) "POST" then handle_post env req res
       else
         js_ret (res_json (JObj [("error", JStr "Method not allowed")])
                          (res_status 405 (res_setHeader "Allow" "GET,POST" res))))
      (λ msg,
         Ret (res_json (JObj [("error", JStr "Server error"); ("detail", JStr msg)])
                       (res_status 500 res))).

(** One invocation: the response left behind and the outbound calls made. *)
Definition serve (world : remote) (env : gmap string string) (req : request)
  : response * list fetch_request :=
  run world [] (handler env req fresh_res).

End Handler.

(** Both required settings are present and non-empty. *)
Definition valid_config (env : gmap string string) : bool :=
  truthy_str (env !! "GITHUB_TOKEN") && truthy_str (env !! "GITHUB_REPO").

(** The outbound calls of a trace that are PUTs. *)
Definition puts (calls : list fetch_request) : list fetch_request :=
  filter (λ rq, rq_method rq = "PUT") calls.

(** The answer of the [catch] block. *)
Definition server_error (msg : string) : response :=
  mkRes 500 ∅ (Some (JObj [("error", JStr "Server error"); ("detail", JStr msg)])).

(** The answer to an outbound GET that came back with a non-success status:
    the upstream status code, a label of the handler's own and the upstream
    status text. *)
Definition upstream_error (label : string) (r : fetch_response) : response :=
  mkRes (status r) ∅ (Some (JObj [("error", JStr label); ("status", JStr (statusText r))])).

(** The body of the PUT of one POST invocation, given the [sha] read from
    the metadata and the bytes of the new content. *)
Definition put_body_of (env : gmap string string) (req : request)
    (sha : option json) (buf : list N) : json :=
  putBody (commit_message (query req)) (toString_base64 buf) (branch_of env) sha.

(** [JSON.stringify(v, null, 2)] and [JSON.stringify(v)] of a defined value. *)
Definition pretty2 (v : json) : string := SerializeJSONProperty "  " "" v.
Definition compact (v : json) : string := SerializeJSONProperty "" "" v.

(** ** Concrete surroundings, for running the handler on examples *)

(** A parser that knows the compact JSON text of the listed documents and
    rejects every other text; on the texts used below it agrees with
    [JSON.parse]. *)
Definition parse_known (docs : list json) (s : string) : result json :=
  match find (λ v, String.eqb (compact v) s) docs with
  | Some v => Ok v
  | None => Throw "Unexpected token in JSON"
  end.

(** A remote side that answers the n-th call with the n-th listed outcome,
    and lets any further call fail. *)
Definition scripted (answers : list fetch_outcome) : remote :=
  λ calls, nth (length calls - 1) answers (Rejected "fetch failed").

Definition sample_env : gmap string string :=
  {[ "GITHUB_TOKEN" := "ghp_example"; "GITHUB_REPO" := "faizan/carepro-accommodation" ]}.

Definition not_found_doc : json := JObj [("message", JStr "Not Found")].
Definition sha_doc : json := JObj [("type", JStr "file"); ("sha", JStr "abc123")].
Definition no_sha_doc : json := JObj [("type", JStr "file")].
Definition rooms_doc : json := JObj [("rooms", JNum "3")].
Definition commit_doc : json := JObj [("commit", JObj [("sha", JStr "def456")])].

Definition sample_parse : string -> result json :=
  parse_known [not_found_doc; sha_doc; no_sha_doc; rooms_doc; commit_doc].

Definition not_found : fetch_response := mkResponse 404 "Not Found" (compact not_found_doc).
Definition found_sha : fetch_response := mkResponse 200 "OK" (compact sha_doc).
Definition found_no_sha : fetch_response := mkResponse 200 "OK" (compact no_sha_doc).
Definition committed : fetch_response := mkResponse 200 "OK" (compact commit_doc).
Definition bad_gateway : fetch_response :=
  mkResponse 502 "Bad Gateway" "<html><body>502 Bad Gateway</body></html>".

Definition get_request : request := mkRequest "GET" None None.
Definition delete_request : request := mkRequest "DELETE" None None.
Definition post_rooms : request := mkRequest "POST" None (Some rooms_doc).
Definition post_rooms_empty_message : request :=
  mkRequest "POST" (Some {[ "message" := QStr "" ]}) (Some rooms_doc).
Definition post_rooms_with_message : request :=
  mkRequest "POST" (Some {[ "message" := QStr "Add rooms" ]}) (Some rooms_doc).

(** The pretty-printed text of [{"rooms": 3}] and its base64 form. *)
Definition rooms_text : string :=
  "{" +:+ String newline ("  " +:+ String dquote ("rooms" +:+ String dquote (": 3" +:+ String newline "}"))).
Definition rooms_b64 : string := "ewogICJyb29tcyI6IDMKfQ==".

(** The remote side of the examples: the metadata fetch finds the
    file with token "abc123", the PUT is answered as listed. *)
Definition file_exists (put_answer : fetch_response) : remote :=
  scripted [Fulfilled found_sha; Fulfilled put_answer].

(** The PUT of [post_rooms] when the file exists, and its body. *)
Definition rooms_body (message : string) : json :=
  JObj [("message", JStr message); ("content", JStr rooms_b64);
        ("branch", JStr "main"); ("sha", JStr "abc123")].

Definition rooms_put (message : string) : fetch_request :=
  put_fetch sample_env (rooms_body message).

(** ** Reading percent-encoded text back *)

(** The value of a hexadecimal digit, upper or lower case. *)
Definition hex_value (c : ascii) : option N :=
  let n := N_of_ascii c in
  if ((48 <=? n) && (n <=? 57))%N then Some (n - 48)%N
  else if ((65 <=? n) && (n <=? 70))%N then Some (n - 55)%N
  else if ((97 <=? n) && (n <=? 102))%N then Some (n - 87)%N
  else None.

(** The bytes a percent-encoded text stands for: [%XY] is the byte with
    hexadecimal digits [X] and [Y], any other character is itself. Used to
    state what a URL built with [encodeURIComponent] designates. *)
Fixpoint percent_decode (s : string) : option string :=
  match s with
  | "" => Some ""
  | String c rest =>
    if Ascii.eqb c "%" then
      match rest with
      | String h (String l rest') =>
        hv ← hex_value h;
        lv ← hex_value l;
        tail ← percent_decode rest';
        Some (String (ascii_of_N (hv * 16 + lv)) tail)
      | _ => None
      end
    else
      tail ← percent_decode rest;
      Some (String c tail)
  end.

(** The characters of a string. *)
Definition chars (s : string) : list ascii := list_ascii_of_string s.

Definition is_object (v : json) : bool :=
  match v with
  | JObj _ => true
  | _ => false
  end.

(** More surroundings for examples. *)
Definition null_metadata : fetch_response := mkResponse 200 "OK" "null".

Definition parse_null_too (s : string) : result json :=
  if String.eqb s "null" then Ok JNull else sample_parse s.

Definition post_without_body : request := mkRequest "POST" None None.

Definition nested_env : gmap string string :=
  <[ "GITHUB_FILE_PATH" := "data/rooms?.json" ]> (<[ "BRANCH" := "" ]> sample_env).

Definition main_env : gmap string string := <[ "BRANCH" := "main" ]> sample_env.

Definition get_with_query : request :=
  mkRequest "GET" (Some {[ "message" := QStr "ignored" ]}) (Some rooms_doc).

Definition html_metadata : fetch_response :=
  mkResponse 200 "OK" "<html><body>Sign in</body></html>".

(** A parser that also knows the pretty-printed text of [rooms_doc]. *)
Definition parse_rooms_text (s : string) : result json :=
  if String.eqb s rooms_text then Ok rooms_doc else sample_parse s.

Definition serves_rooms : remote := scripted [Fulfilled (mkResponse 200 "OK" rooms_text)].

(** ** The PUT as it goes out *)

(** The entry that [if (sha) putBody.sha = sha] adds to [putBody]. *)
Definition token_field (sha : option json) : list (string * json) :=
  match sha with
  | Some s => if truthy sha then [("sha", s)] else []
  | None => []
  end.

(** A text between double quotes, nothing escaped. *)
Definition quoted (s : string) : string := String dquote (s +:+ String dquote "").

(** The JSON text of the PUT of [post_rooms], character by character, with
    and without a token. *)
Definition rooms_wire (message : string) : string :=
  "{" +:+ quoted "message" +:+ ":" +:+ quoted message +:+ ","
  +:+ quoted "content" +:+ ":" +:+ quoted rooms_b64 +:+ ","
  +:+ quoted "branch" +:+ ":" +:+ quoted "main" +:+ ","
  +:+ quoted "sha" +:+ ":" +:+ quoted "abc123" +:+ "}".

Definition rooms_wire_no_sha (message : string) : string :=
  "{" +:+ quoted "message" +:+ ":" +:+ quoted message +:+ ","
  +:+ quoted "content" +:+ ":" +:+ quoted rooms_b64 +:+ ","
  +:+ quoted "branch" +:+ ":" +:+ quoted "main" +:+ "}".

(** ** A remote side that may never answer *)

(** No timeout is set on the outbound calls: a call may never settle
    ([None]), and the invocation then hangs with the response unsent. *)
Definition hanging_remote : Type := list fetch_request -> option fetch_outcome.

(** Running up to the first call that never settles: the value, if the
    computation got to its end, and the calls issued. *)
Fixpoint run_until_hang {A} (world : hanging_remote) (calls : list fetch_request) (p : io A)
  : option A * list fetch_request :=
  match p with
  | Ret a => (Some a, calls)
  | Await rq k =>
    match world (calls ++ [rq]) with
    | Some o => run_until_hang world (calls ++ [rq]) (k o)
    | None => (None, calls ++ [rq])
    end
  end.

Definition serve_until_hang (JSON_parse : string -> result json) (world : hanging_remote)
    (env : gmap string string) (req : request) : option response * list fetch_request :=
  run_until_hang world [] (handler JSON_parse env req fresh_res).

(** A remote side whose calls all settle, seen as one that may hang. *)
Definition settling (world : remote) : hanging_remote := λ calls, Some (world calls).

(** The remote side that answers like [world] where [world] answers. *)
Definition settle (world : hanging_remote) : remote :=
  λ calls, default (Rejected "") (world calls).

(** A remote side on which the first call settles and the second never. *)
Definition hangs_on_put : hanging_remote :=
  λ calls, match calls with [_] => Some (Fulfilled found_sha) | _ => None end.

(** * Properties *)

(** ** Serialisation on examples *)

Example stringify_rooms : JSON_stringify (Some rooms_doc) 2 = Some rooms_text.
Proof. vm_compute. reflexivity. Qed.

Example stringify_nested :
  JSON_stringify (Some (JObj [("a", JArr [JNum "1"; JStr "x"]); ("b", JObj []); ("c", JNull)])) 0 =
  Some ("{" +:+ QuoteJSONString "a" +:+ ":[1," +:+ QuoteJSONString "x" +:+ "]," +:+ QuoteJSONString "b"
        +:+ ":{}," +:+ QuoteJSONString "c" +:+ ":null}").
Proof. vm_compute. reflexivity. Qed.

Example stringify_nested_pretty :
  pretty2 (JObj [("a", JArr [JNum "-1"; JBool true]); ("b", JObj [])]) =
  "{" +:+ String newline ("  " +:+ QuoteJSONString "a" +:+ ": ["
   +:+ String newline ("    -1," +:+ String newline ("    true" +:+ String newline ("  ],"
   +:+ String newline ("  " +:+ QuoteJSONString "b" +:+ ": {}" +:+ String newline "}"))))).
Proof. vm_compute. reflexivity. Qed.

Example stringify_number_texts :
  pretty2 (JObj [("big", JNum "1e+21"); ("half", JNum "0.5")]) =
  "{" +:+ String newline ("  " +:+ quoted "big" +:+ ": 1e+21,"
   +:+ String newline ("  " +:+ quoted "half" +:+ ": 0.5" +:+ String newline "}")).
Proof. vm_compute. reflexivity. Qed.

Example encode_path : encodeURIComponent "data/my file.json" = "data%2Fmy%20file.json".
Proof. vm_compute. reflexivity. Qed.

Example base64_rooms : toString_base64 (bytes_of rooms_text) = rooms_b64.
Proof. vm_compute. reflexivity. Qed.

Example sample_parse_sha : sample_parse (text found_sha) = Ok sha_doc.
Proof. vm_compute. reflexivity. Qed.

Example sample_parse_html : sample_parse (text bad_gateway) = Throw "Unexpected token in JSON".
Proof. vm_compute. reflexivity. Qed.

(** ** Base64 text decodes to the bytes it was made from *)

Lemma list_by_triples {A} (P : list A -> Prop) :
  P [] -> (∀ a, P [a]) -> (∀ a b, P [a; b]) ->
  (∀ a b c l, P l -> P (a :: b :: c :: l)) ->
  ∀ l, P l.
Proof.
  intros H0 H1 H2 H3 l.
  cut (P l /\ (∀ a, P (a :: l)) /\ (∀ a b, P (a :: b :: l))); [tauto|].
  induction l as [|x l (IH0 & IH1 & IH2)]; [auto|].
  split; [apply IH1|]. split; [intros a; apply IH2|].
  intros a b. apply H3, IH0.
Qed.

Lemma base64_digits_checked :
  forallb (λ n, match base64_digit (base64_char n) with
                | Some m => (m =? n)%N && negb (Ascii.eqb (base64_char n) "=")
                | None => false
                end) (map N.of_nat (seq 0 64)) = true.
Proof. vm_compute. reflexivity. Qed.

Lemma base64_digit_char n :
  (n < 64)%N -> base64_digit (base64_char n) = Some n /\ Ascii.eqb (base64_char n) "=" = false.
Proof.
  intros Hn. pose proof base64_digits_checked as H.
  rewrite forallb_forall in H. specialize (H n).
  assert (In n (map N.of_nat (seq 0 64))) as Hin.
  { apply in_map_iff. exists (N.to_nat n). split; [lia|]. apply in_seq. lia. }
  apply H in Hin. destruct (base64_digit (base64_char n)) as [m|]; [|discriminate].
  apply andb_true_iff in Hin as [Hm Hc]. apply N.eqb_eq in Hm as ->.
  split; [reflexivity|]. apply negb_true_iff, Hc.
Qed.

Lemma group_digits a b c :
  (a < 256 -> b < 256 -> c < 256 ->
   let n := a * 65536 + b * 256 + c in
   n / 262144 < 64 /\ (n / 4096) mod 64 < 64 /\ (n / 64) mod 64 < 64 /\ n mod 64 < 64 /\
   (n / 262144) * 4 + ((n / 4096) mod 64) / 16 = a /\
   (((n / 4096) mod 64) mod 16) * 16 + ((n / 64) mod 64) / 4 = b /\
   (((n / 64) mod 64) mod 4) * 64 + n mod 64 = c)%N.
Proof.
  intros Ha Hb Hc n. subst n. zify. Z.to_euclidean_division_equations. lia.
Qed.

Lemma base64_bytes_groups (bytes : list N) :
  Forall (λ b, (b < 256)%N) bytes -> base64_bytes (base64_groups bytes) = Some bytes.
Proof.
  induction bytes as [|a|a b|a b c rest IH] using list_by_triples; intros Hall.
  - reflexivity.
  - apply Forall_cons in Hall as [Ha _].
    destruct (group_digits a 0 0 Ha eq_refl eq_refl) as (H0 & H1 & _ & _ & E0 & _).
    cbn [base64_groups base64_bytes].
    replace (a * 65536)%N with (a * 65536 + 0 * 256 + 0)%N by lia.
    destruct (base64_digit_char _ H0) as [-> _], (base64_digit_char _ H1) as [-> _].
    cbn. rewrite E0. reflexivity.
  - apply Forall_cons in Hall as [Ha Hall]. apply Forall_cons in Hall as [Hb _].
    destruct (group_digits a b 0 Ha Hb eq_refl) as (H0 & H1 & H2 & _ & E0 & E1 & _).
    cbn [base64_groups base64_bytes].
    replace (a * 65536 + b * 256)%N with (a * 65536 + b * 256 + 0)%N by lia.
    destruct (base64_digit_char _ H0) as [-> _], (base64_digit_char _ H1) as [-> _],
             (base64_digit_char _ H2) as [-> ->].
    cbn. rewrite E0, E1. reflexivity.
  - apply Forall_cons in Hall as [Ha Hall]. apply Forall_cons in Hall as [Hb Hall].
    apply Forall_cons in Hall as [Hc Hall].
    destruct (group_digits a b c Ha Hb Hc) as (H0 & H1 & H2 & H3 & E0 & E1 & E2).
    cbn [base64_groups base64_bytes].
    destruct (base64_digit_char _ H0) as [-> _], (base64_digit_char _ H1) as [-> _],
             (base64_digit_char _ H2) as [-> ->], (base64_digit_char _ H3) as [-> ->].
    cbn [mbind option_bind]. rewrite (IH Hall). cbn [mbind option_bind].
    rewrite E0, E1, E2. reflexivity.
Qed.

(** Decoding the base64 form of a string gives the string back. *)
Lemma base64_decode_encode (s : string) :
  base64_decode (toString_base64 (bytes_of s)) = Some s.
Proof.
  unfold base64_decode, toString_base64, bytes_of.
  rewrite list_ascii_of_string_of_list_ascii, base64_bytes_groups.
  - cbn [mbind option_bind]. rewrite map_map.
    rewrite (map_ext _ id), map_id by (intros c; apply ascii_N_embedding).
    rewrite string_of_list_ascii_of_string. reflexivity.
  - apply Forall_forall. intros b Hb. apply list_elem_of_In, in_map_iff in Hb as (c & <- & _).
    apply N_ascii_bounded.
Qed.

(** ** The handler, call by call *)

Section Properties.

Variable JSON_parse : string -> result json.
Variable world : remote.

Lemma config_guard env :
  valid_config env = true ->
  negb (truthy_str (env !! "GITHUB_TOKEN")) || negb (truthy_str (env !! "GITHUB_REPO")) = false.
Proof.
  unfold valid_config. intros H. apply andb_true_iff in H as [-> ->]. reflexivity.
Qed.

(** Under valid configuration the handler is its [try] block. *)
Lemma handler_configured env req res :
  valid_config env = true ->
  handler JSON_parse env req res =
  try_catch
    (if String.eqb (method req) "GET" then handle_get JSON_parse env res
     else if String.eqb (method req) "POST" then handle_post JSON_parse env req res
     else js_ret (res_json (JObj [("error", JStr "Method not allowed")])
                           (res_status 405 (res_setHeader "Allow" "GET,POST" res))))
    (λ msg, Ret (res_json (JObj [("error", JStr "Server error"); ("detail", JStr msg)])
                          (res_status 500 res))).
Proof.
  intros Hc. unfold handler. rewrite (config_guard _ Hc). reflexivity.
Qed.

(** What one GET invocation does, by the answer to its only call. *)
Lemma serve_get env req :
  valid_config env = true -> method req = "GET" ->
  serve JSON_parse world env req =
  (match world [content_fetch env] with
   | Fulfilled r =>
     if ok r then
       match JSON_parse (text r) with
       | Ok obj => mkRes 200 ∅ (Some obj)
       | Throw _ => mkRes 200 ∅ (Some (JObj [("raw", JStr (text r))]))
       end
     else upstream_error "GitHub GET failed" r
   | Rejected msg => server_error msg
   end, [content_fetch env]).
Proof.
  intros Hc Hm. unfold serve. rewrite (handler_configured _ _ _ Hc), Hm.
  unfold handle_get, fetch. cbn [String.eqb Ascii.eqb Bool.eqb js_bind try_catch run app].
  destruct (world [content_fetch env]) as [r | msg]; cbn [js_bind try_catch run]; [|reflexivity].
  destruct (ok r); cbn [negb js_ret try_catch run]; [|reflexivity].
  destruct (JSON_parse (text r)); reflexivity.
Qed.

(** What one POST invocation does, by the answers to its calls. *)
Lemma serve_post env req :
  valid_config env = true -> method req = "POST" ->
  serve JSON_parse world env req =
  match world [metadata_fetch env] with
  | Rejected msg => (server_error msg, [metadata_fetch env])
  | Fulfilled metaR =>
    if ok metaR then
      match JSON_parse (text metaR) with
      | Throw e => (server_error e, [metadata_fetch env])
      | Ok meta =>
        match get_prop meta "sha" with
        | Throw e => (server_error e, [metadata_fetch env])
        | Ok sha =>
          match Buffer_from (JSON_stringify (body req) 2) with
          | Throw e => (server_error e, [metadata_fetch env])
          | Ok buf =>
            let put := put_fetch env (put_body_of env req sha buf) in
            (match world [metadata_fetch env; put] with
             | Rejected msg => server_error msg
             | Fulfilled putR =>
               match JSON_parse (text putR) with
               | Throw e => server_error e
               | Ok j =>
                 if ok putR then
                   mkRes 200 ∅ (Some (JObj [("message", JStr saved_message); ("result", j)]))
                 else
                   mkRes (status putR) ∅
                     (Some (JObj [("error", JStr "GitHub PUT failed"); ("detail", j)]))
               end
             end, [metadata_fetch env; put])
          end
        end
      end
    else (upstream_error "Could not fetch file metadata" metaR, [metadata_fetch env])
  end.
Proof.
  intros Hc Hm. unfold serve. rewrite (handler_configured _ _ _ Hc), Hm.
  unfold handle_post, fetch, response_json, js_lift.
  cbn [String.eqb Ascii.eqb Bool.eqb js_bind try_catch run app].
  destruct (world [metadata_fetch env]) as [metaR | msg];
    cbn [js_bind try_catch run]; [|reflexivity].
  destruct (ok metaR); cbn [negb js_ret js_bind try_catch run]; [|reflexivity].
  destruct (JSON_parse (text metaR)) as [meta | e];
    cbn [js_bind try_catch run]; [|reflexivity].
  destruct (get_prop meta "sha") as [sha | e]; cbn [js_bind try_catch run]; [|reflexivity].
  destruct (Buffer_from (JSON_stringify (body req) 2)) as [buf | e];
    cbn [js_bind try_catch run app]; [|reflexivity].
  fold (put_body_of env req sha buf).
  destruct (world [metadata_fetch env; put_fetch env (put_body_of env req sha buf)])
    as [putR | msg]; cbn [js_bind try_catch run]; [|reflexivity].
  destruct (JSON_parse (text putR)) as [j | e]; cbn [js_bind try_catch run]; [|reflexivity].
  destruct (ok putR); reflexivity.
Qed.

(** A POST makes the metadata call first and at most one PUT after it. *)
Lemma post_calls env req :
  valid_config env = true -> method req = "POST" ->
  (serve JSON_parse world env req).2 = [metadata_fetch env] \/
  ∃ sha buf,
    (serve JSON_parse world env req).2 =
      [metadata_fetch env; put_fetch env (put_body_of env req sha buf)].
Proof.
  intros Hc Hm. rewrite (serve_post _ _ Hc Hm).
  destruct (world [metadata_fetch env]) as [metaR | msg]; [|left; reflexivity].
  destruct (ok metaR); [|left; reflexivity].
  destruct (JSON_parse (text metaR)) as [meta | e]; [|left; reflexivity].
  destruct (get_prop meta "sha") as [sha | e]; [|left; reflexivity].
  destruct (Buffer_from (JSON_stringify (body req) 2)) as [buf | e]; [|left; reflexivity].
  right. exists sha, buf. reflexivity.
Qed.

(** When a PUT is among the calls of a POST, every step before it went
    through: the metadata answer was a success, parsed, and the request
    had a body. *)
Lemma post_put_issued env req rq :
  valid_config env = true -> method req = "POST" ->
  rq ∈ puts (serve JSON_parse world env req).2 ->
  ∃ metaR meta sha b,
    world [metadata_fetch env] = Fulfilled metaR /\ ok metaR = true /\
    JSON_parse (text metaR) = Ok meta /\ get_prop meta "sha" = Ok sha /\
    body req = Some b /\
    rq = put_fetch env (put_body_of env req sha (bytes_of (pretty2 b))) /\
    (serve JSON_parse world env req).2 = [metadata_fetch env; rq].
Proof.
  intros Hc Hm. rewrite (serve_post _ _ Hc Hm).
  destruct (world [metadata_fetch env]) as [metaR | msg]; [|intros H; inversion H].
  destruct (ok metaR) eqn:Hok; [|intros H; inversion H].
  destruct (JSON_parse (text metaR)) as [meta | e] eqn:Hmeta; [|intros H; inversion H].
  destruct (get_prop meta "sha") as [sha | e] eqn:Hsha; [|intros H; inversion H].
  destruct (body req) as [b|]; [|intros H; inversion H].
  cbn [JSON_stringify Buffer_from snd]. intros H.
  apply list_elem_of_singleton in H as ->.
  exists metaR, meta, sha, b. repeat split; reflexivity || assumption.
Qed.

(** Without valid configuration nothing is called. *)
Lemma serve_unconfigured env req :
  valid_config env = false -> (serve JSON_parse world env req).2 = [].
Proof.
  intros Hc. unfold serve, handler.
  assert (negb (truthy_str (env !! "GITHUB_TOKEN"))
          || negb (truthy_str (env !! "GITHUB_REPO")) = true) as ->; [|reflexivity].
  unfold valid_config in Hc. apply andb_false_iff in Hc as [-> | ->];
    [reflexivity | apply orb_true_r].
Qed.

(** An issued PUT shows that the configuration is valid. *)
Lemma put_issued_configured env req rq :
  rq ∈ puts (serve JSON_parse world env req).2 -> valid_config env = true.
Proof.
  destruct (valid_config env) eqn:Hc; [reflexivity|].
  rewrite (serve_unconfigured _ _ Hc). intros H. inversion H.
Qed.

End Properties.

(** ** The body of the PUT *)

Lemma putBody_message m c b s : field (putBody m c b s) "message" = Some m.
Proof. unfold putBody. destruct s; [destruct (truthy _)|]; reflexivity. Qed.

Lemma putBody_content m c b s : field (putBody m c b s) "content" = Some (JStr c).
Proof. unfold putBody. destruct s; [destruct (truthy _)|]; reflexivity. Qed.

Lemma putBody_branch m c b s : field (putBody m c b s) "branch" = Some (JStr b).
Proof. unfold putBody. destruct s; [destruct (truthy _)|]; reflexivity. Qed.

Lemma putBody_sha m c b s :
  field (putBody m c b s) "sha" = if truthy s then s else None.
Proof. unfold putBody. destruct s; [destruct (truthy _)|]; reflexivity. Qed.

Lemma putBody_has_sha m c b s : has_field (putBody m c b s) "sha" = truthy s.
Proof.
  unfold has_field. rewrite putBody_sha.
  destruct s as [j|]; [|reflexivity]. destruct (truthy (Some j)); reflexivity.
Qed.

Lemma commit_message_cases q :
  (∀ c s, query_message q = Some (QStr (String c s)) -> commit_message q = JStr (String c s)) /\
  (∀ l, query_message q = Some (QArr l) -> commit_message q = JArr (map JStr l)) /\
  (query_message q = None \/ query_message q = Some (QStr "") ->
   commit_message q = JStr "Update data.json via app").
Proof.
  unfold commit_message. repeat split.
  - intros c s ->. reflexivity.
  - intros l ->. reflexivity.
  - intros [-> | ->]; reflexivity.
Qed.

Lemma putBody_shape m c b s :
  putBody m c b s =
  JObj ([("message", m); ("content", JStr c); ("branch", JStr b)] ++ token_field s).
Proof. unfold putBody, token_field. destruct s; [destruct (truthy _)|]; reflexivity. Qed.

Lemma token_field_cases s : token_field s = [] \/ ∃ v, token_field s = [("sha", v)].
Proof.
  unfold token_field. destruct s as [v|]; [|left; reflexivity].
  destruct (truthy (Some v)); [right; exists v; reflexivity | left; reflexivity].
Qed.

Lemma put_fetch_body env pb : rq_body (put_fetch env pb) = Some (compact pb).
Proof. reflexivity. Qed.

(** ** The claims *)

Section Claims.

Variable JSON_parse : string -> result json.
Variable world : remote.

(** C5: when the access token or the repository identifier is missing
    (absent or empty) the handler answers 500, whatever the method, and
    makes no outbound call. *)
Theorem missing_config_500_no_calls env req :
  truthy_str (env !! "GITHUB_TOKEN") = false \/ truthy_str (env !! "GITHUB_REPO") = false ->
  statusCode (serve JSON_parse world env req).1 = 500 /\
  sent (serve JSON_parse world env req).1 =
    Some (JObj [("error", JStr "Missing GITHUB_TOKEN or GITHUB_REPO environment variables")]) /\
  (serve JSON_parse world env req).2 = [].
Proof.
  intros H. unfold serve, handler.
  assert (negb (truthy_str (env !! "GITHUB_TOKEN"))
          || negb (truthy_str (env !! "GITHUB_REPO")) = true) as ->.
  { destruct H as [-> | ->]; [reflexivity | apply orb_true_r]. }
  repeat split.
Qed.

(** C3: a GET under valid configuration whose upstream fetch succeeds is
    answered 200, with the parsed value when the text parses as JSON and
    with [{ raw: text }], the exact text, when it does not. *)
Theorem get_success_parsed_or_raw env req r :
  valid_config env = true -> method req = "GET" ->
  world [content_fetch env] = Fulfilled r -> ok r = true ->
  statusCode (serve JSON_parse world env req).1 = 200 /\
  sent (serve JSON_parse world env req).1 =
    Some (match JSON_parse (text r) with
          | Ok obj => obj
          | Throw _ => JObj [("raw", JStr (text r))]
          end).
Proof.
  intros Hc Hm Hw Hok. rewrite (serve_get _ _ _ _ Hc Hm), Hw, Hok.
  destruct (JSON_parse (text r)); split; reflexivity.
Qed.

(** C9, amended: under valid configuration a request whose method is
    neither GET nor POST is answered 405 with the header [Allow: GET,POST],
    and no outbound call is made. *)
Theorem other_method_405 env req :
  valid_config env = true -> method req ≠ "GET" -> method req ≠ "POST" ->
  statusCode (serve JSON_parse world env req).1 = 405 /\
  headers (serve JSON_parse world env req).1 !! "Allow" = Some "GET,POST" /\
  sent (serve JSON_parse world env req).1 = Some (JObj [("error", JStr "Method not allowed")]) /\
  (serve JSON_parse world env req).2 = [].
Proof.
  intros Hc Hg Hp. unfold serve. rewrite (handler_configured _ _ _ _ Hc).
  apply String.eqb_neq in Hg, Hp. rewrite Hg, Hp.
  cbn [js_ret try_catch run fst snd statusCode headers sent res_json res_status res_setHeader
       fresh_res].
  repeat split.
Qed.

(** C4, amended: when the content fetch of a GET, or the metadata fetch of
    a POST, comes back with a non-success status, the handler answers with
    the upstream status code and the body
    [{ error: <its own label>, status: <the upstream status text> }]; the
    upstream body is not passed on; that call stays the only one. *)
Theorem upstream_failure_relayed env req r :
  valid_config env = true -> ok r = false ->
  (method req = "GET" -> world [content_fetch env] = Fulfilled r ->
   serve JSON_parse world env req =
     (mkRes (status r) ∅
        (Some (JObj [("error", JStr "GitHub GET failed"); ("status", JStr (statusText r))])),
      [content_fetch env])) /\
  (method req = "POST" -> world [metadata_fetch env] = Fulfilled r ->
   serve JSON_parse world env req =
     (mkRes (status r) ∅
        (Some (JObj [("error", JStr "Could not fetch file metadata");
                     ("status", JStr (statusText r))])),
      [metadata_fetch env])).
Proof.
  intros Hc Hok. split; intros Hm Hw.
  - rewrite (serve_get _ _ _ _ Hc Hm), Hw, Hok. reflexivity.
  - rewrite (serve_post _ _ _ _ Hc Hm), Hw, Hok. reflexivity.
Qed.

(** C1, amended: a POST under valid configuration whose metadata fetch
    comes back "not found" (404) issues no PUT: the metadata fetch is its
    only call and the answer is 404 with the handler's error envelope. *)
Theorem post_not_found_aborts env req r :
  valid_config env = true -> method req = "POST" ->
  world [metadata_fetch env] = Fulfilled r -> status r = 404 ->
  (serve JSON_parse world env req).2 = [metadata_fetch env] /\
  puts (serve JSON_parse world env req).2 = [] /\
  statusCode (serve JSON_parse world env req).1 = 404 /\
  sent (serve JSON_parse world env req).1 =
    Some (JObj [("error", JStr "Could not fetch file metadata");
                ("status", JStr (statusText r))]).
Proof.
  intros Hc Hm Hw Hs. rewrite (serve_post _ _ _ _ Hc Hm), Hw.
  unfold ok. rewrite Hs. cbn [Z.leb Z.compare Pos.compare Pos.compare_cont andb].
  repeat split. exact Hs.
Qed.

(** C2, amended: a POST under valid configuration issues the metadata
    fetch first and a PUT, if any, right after it; when the metadata fetch
    comes back with a non-success status the answer carries that status and
    there is no PUT; when it succeeds, its body parses as JSON with a
    truthy [sha] and the request has a body, the PUT is issued and the JSON
    text it sends has that value as its [sha]. *)
Theorem metadata_before_put env req :
  valid_config env = true -> method req = "POST" ->
  ((serve JSON_parse world env req).2 = [metadata_fetch env] \/
   ∃ pb, (serve JSON_parse world env req).2 = [metadata_fetch env; put_fetch env pb]) /\
  (∀ r, world [metadata_fetch env] = Fulfilled r -> ok r = false ->
     statusCode (serve JSON_parse world env req).1 = status r /\
     puts (serve JSON_parse world env req).2 = []) /\
  (∀ r meta t b, world [metadata_fetch env] = Fulfilled r -> ok r = true ->
     JSON_parse (text r) = Ok meta -> get_prop meta "sha" = Ok (Some t) ->
     truthy (Some t) = true -> body req = Some b ->
     ∃ rq,
       (serve JSON_parse world env req).2 = [metadata_fetch env; rq] /\
       rq_method rq = "PUT" /\ rq_url rq = putUrl env /\
       rq_body rq =
         Some (compact (JObj [("message", commit_message (query req));
                              ("content", JStr (toString_base64 (bytes_of (pretty2 b))));
                              ("branch", JStr (branch_of env));
                              ("sha", t)]))).
Proof.
  intros Hc Hm. split; [|split].
  - destruct (post_calls JSON_parse world env req Hc Hm) as [H | (sha & buf & H)];
      [left; exact H | right; eexists; exact H].
  - intros r Hw Hok. rewrite (serve_post _ _ _ _ Hc Hm), Hw, Hok. split; reflexivity.
  - intros r meta t b Hw Hok Hp Hsha Ht Hb.
    rewrite (serve_post _ _ _ _ Hc Hm), Hw, Hok, Hp, Hsha, Hb.
    change (Buffer_from (JSON_stringify (Some b) 2)) with (Ok (bytes_of (pretty2 b))).
    cbv zeta. cbn [snd]. eexists. split; [reflexivity|].
    split; [reflexivity|]. split; [reflexivity|].
    rewrite put_fetch_body. unfold put_body_of. rewrite putBody_shape.
    unfold token_field. rewrite Ht. reflexivity.
Qed.

(** C6: for the POST body [{"rooms": 3}], when the metadata fetch succeeds
    with the token "abc123", the JSON text the PUT sends has as [content]
    the base64 text that decodes to the three lines [{], [  "rooms": 3],
    [}], and as [sha] the value "abc123". *)
Theorem rooms_put_body env req r meta :
  valid_config env = true -> method req = "POST" -> body req = Some rooms_doc ->
  world [metadata_fetch env] = Fulfilled r -> ok r = true ->
  JSON_parse (text r) = Ok meta -> get_prop meta "sha" = Ok (Some (JStr "abc123")) ->
  ∃ rq,
    (serve JSON_parse world env req).2 = [metadata_fetch env; rq] /\
    rq_method rq = "PUT" /\
    rq_body rq =
      Some (compact (JObj [("message", commit_message (query req));
                           ("content", JStr rooms_b64);
                           ("branch", JStr (branch_of env));
                           ("sha", JStr "abc123")])) /\
    base64_decode rooms_b64 = Some rooms_text.
Proof.
  intros Hc Hm Hb Hw Hok Hp Hsha.
  rewrite (serve_post _ _ _ _ Hc Hm), Hw, Hok, Hp, Hsha, Hb.
  change (Buffer_from (JSON_stringify (Some rooms_doc) 2)) with (Ok (bytes_of rooms_text)).
  cbv zeta. cbn [snd]. eexists. split; [reflexivity|]. split; [reflexivity|].
  rewrite put_fetch_body. unfold put_body_of. rewrite putBody_shape, base64_rooms.
  split; [reflexivity|]. rewrite <- base64_rooms. apply base64_decode_encode.
Qed.

(** C7, amended: for a POST whose PUT is issued and answered, when the
    answer's body parses as JSON the handler answers with the PUT's status
    code and [{ error, detail: <parsed body> }] on a non-success status,
    and with 200 and [{ message, result: <parsed body> }] on success; when
    the body does not parse, it answers 500 with the generic envelope. *)
Theorem put_outcome env req rq putR :
  method req = "POST" ->
  rq ∈ puts (serve JSON_parse world env req).2 ->
  world [metadata_fetch env; rq] = Fulfilled putR ->
  (serve JSON_parse world env req).1 =
    match JSON_parse (text putR) with
    | Ok j =>
      if ok putR then
        mkRes 200 ∅ (Some (JObj [("message", JStr saved_message); ("result", j)]))
      else
        mkRes (status putR) ∅ (Some (JObj [("error", JStr "GitHub PUT failed"); ("detail", j)]))
    | Throw e =>
      mkRes 500 ∅ (Some (JObj [("error", JStr "Server error"); ("detail", JStr e)]))
    end.
Proof.
  intros Hm Hin Hw.
  pose proof (put_issued_configured JSON_parse world env req rq Hin) as Hc.
  destruct (post_put_issued JSON_parse world env req rq Hc Hm Hin)
    as (metaR & meta & sha & b & Hw1 & Hok & Hp & Hsha & Hb & -> & _).
  rewrite (serve_post _ _ _ _ Hc Hm), Hw1, Hok, Hp, Hsha, Hb.
  change (Buffer_from (JSON_stringify (Some b) 2)) with (Ok (bytes_of (pretty2 b))).
  cbv zeta. cbn [fst]. rewrite Hw. reflexivity.
Qed.

(** C8, amended: the JSON text of every PUT a POST issues is that of an
    object with, in this order, [message]: the [message] query parameter
    when that is a non-empty string (or an array), and "Update data.json
    via app" when it is absent or empty; [content]: the base64 form of the
    pretty-printed request body; [branch]: the configured branch; and
    after them at most a [sha]. *)
Theorem put_body_fields env req rq :
  method req = "POST" ->
  rq ∈ puts (serve JSON_parse world env req).2 ->
  ∃ b m token,
    body req = Some b /\
    rq_body rq =
      Some (compact (JObj ([("message", m);
                            ("content", JStr (toString_base64 (bytes_of (pretty2 b))));
                            ("branch", JStr (or_default (env !! "BRANCH") "main"))]
                           ++ token))) /\
    (token = [] \/ ∃ s, token = [("sha", s)]) /\
    (∀ c s, query_message (query req) = Some (QStr (String c s)) -> m = JStr (String c s)) /\
    (∀ l, query_message (query req) = Some (QArr l) -> m = JArr (map JStr l)) /\
    (query_message (query req) = None \/ query_message (query req) = Some (QStr "") ->
       m = JStr "Update data.json via app") /\
    base64_decode (toString_base64 (bytes_of (pretty2 b))) = Some (pretty2 b).
Proof.
  intros Hm Hin.
  pose proof (put_issued_configured JSON_parse world env req rq Hin) as Hc.
  destruct (post_put_issued JSON_parse world env req rq Hc Hm Hin)
    as (metaR & meta & sha & b & _ & _ & _ & _ & Hb & -> & _).
  destruct (commit_message_cases (query req)) as (M1 & M2 & M3).
  exists b, (commit_message (query req)), (token_field sha).
  split; [exact Hb|]. split.
  { rewrite put_fetch_body. unfold put_body_of. rewrite putBody_shape. reflexivity. }
  split; [apply token_field_cases|].
  repeat split; [exact M1 | exact M2 | exact M3 | apply base64_decode_encode].
Qed.

(** C10, amended: for a POST whose metadata fetch succeeds, the JSON text
    of every PUT that is issued is that of an object with a [sha] field
    exactly when the parsed metadata has a truthy [sha], and then it is
    that value; when the metadata JSON (not [null]) has no [sha], or a
    falsy one, and the request has a body, the PUT is issued and the
    object it sends has the fields [message], [content], [branch] only. *)
Theorem put_sha_iff_truthy env req r :
  valid_config env = true -> method req = "POST" ->
  world [metadata_fetch env] = Fulfilled r -> ok r = true ->
  (∀ rq, rq ∈ puts (serve JSON_parse world env req).2 ->
     ∃ pb meta sha,
       rq_body rq = Some (compact pb) /\ JSON_parse (text r) = Ok meta /\
       get_prop meta "sha" = Ok sha /\
       has_field pb "sha" = truthy sha /\
       (truthy sha = true -> field pb "sha" = sha)) /\
  (∀ meta sha b, JSON_parse (text r) = Ok meta -> get_prop meta "sha" = Ok sha ->
     body req = Some b -> truthy sha = false ->
     ∃ rq,
       (serve JSON_parse world env req).2 = [metadata_fetch env; rq] /\
       rq_method rq = "PUT" /\
       rq_body rq =
         Some (compact (JObj [("message", commit_message (query req));
                              ("content", JStr (toString_base64 (bytes_of (pretty2 b))));
                              ("branch", JStr (branch_of env))]))).
Proof.
  intros Hc Hm Hw Hok. split.
  - intros rq Hin.
    destruct (post_put_issued JSON_parse world env req rq Hc Hm Hin)
      as (metaR & meta & sha & b & Hw1 & _ & Hp & Hsha & _ & -> & _).
    rewrite Hw in Hw1. injection Hw1 as <-.
    eexists _, meta, sha. split; [apply put_fetch_body|].
    split; [exact Hp|]. split; [exact Hsha|].
    unfold put_body_of. rewrite putBody_has_sha, putBody_sha.
    split; [reflexivity|]. intros ->. reflexivity.
  - intros meta sha b Hp Hsha Hb Ht.
    rewrite (serve_post _ _ _ _ Hc Hm), Hw, Hok, Hp, Hsha, Hb.
    change (Buffer_from (JSON_stringify (Some b) 2)) with (Ok (bytes_of (pretty2 b))).
    cbv zeta. cbn [snd]. eexists. split; [reflexivity|]. split; [reflexivity|].
    rewrite put_fetch_body. unfold put_body_of. rewrite putBody_shape.
    assert (token_field sha = []) as ->; [|reflexivity].
    unfold token_field. destruct sha as [v|]; [rewrite Ht|]; reflexivity.
Qed.

End Claims.

(** ** The claims on concrete invocations *)

Lemma missing_config_500_no_calls_witness :
  (truthy_str ((∅ : gmap string string) !! "GITHUB_TOKEN") = false \/
   truthy_str ((∅ : gmap string string) !! "GITHUB_REPO") = false) /\
  statusCode (serve sample_parse (scripted []) ∅ post_rooms).1 = 500 /\
  (serve sample_parse (scripted []) ∅ post_rooms).2 = [].
Proof.
  split; [left; reflexivity|].
  pose proof (missing_config_500_no_calls sample_parse (scripted []) ∅ post_rooms
                (or_introl eq_refl)) as (H1 & _ & H3).
  exact (conj H1 H3).
Defined.

Lemma get_success_parsed_or_raw_witness :
  (valid_config sample_env = true /\ method get_request = "GET" /\
   ok (mkResponse 200 "OK" (compact rooms_doc)) = true /\
   ok (mkResponse 200 "OK" "rooms: three") = true) /\
  sent (serve sample_parse (scripted [Fulfilled (mkResponse 200 "OK" (compact rooms_doc))])
          sample_env get_request).1 = Some rooms_doc /\
  sent (serve sample_parse (scripted [Fulfilled (mkResponse 200 "OK" "rooms: three")])
          sample_env get_request).1 = Some (JObj [("raw", JStr "rooms: three")]).
Proof.
  split; [repeat split|]. split.
  - exact (proj2 (get_success_parsed_or_raw sample_parse
             (scripted [Fulfilled (mkResponse 200 "OK" (compact rooms_doc))])
             sample_env get_request (mkResponse 200 "OK" (compact rooms_doc))
             eq_refl eq_refl eq_refl eq_refl)).
  - exact (proj2 (get_success_parsed_or_raw sample_parse
             (scripted [Fulfilled (mkResponse 200 "OK" "rooms: three")])
             sample_env get_request (mkResponse 200 "OK" "rooms: three")
             eq_refl eq_refl eq_refl eq_refl)).
Defined.

(** C9 as stated fails without configuration: a DELETE is then answered
    500, with no [Allow] header. *)
Lemma unconfigured_delete_counterexample :
  method delete_request ≠ "GET" /\ method delete_request ≠ "POST" /\
  statusCode (serve sample_parse (scripted []) ∅ delete_request).1 = 500 /\
  headers (serve sample_parse (scripted []) ∅ delete_request).1 !! "Allow" = None.
Proof. repeat split; discriminate. Qed.

Lemma other_method_405_witness :
  (valid_config sample_env = true /\
   method delete_request ≠ "GET" /\ method delete_request ≠ "POST") /\
  statusCode (serve sample_parse (scripted []) sample_env delete_request).1 = 405 /\
  headers (serve sample_parse (scripted []) sample_env delete_request).1 !! "Allow"
    = Some "GET,POST" /\
  (serve sample_parse (scripted []) sample_env delete_request).2 = [].
Proof.
  assert (Hg : method delete_request ≠ "GET") by discriminate.
  assert (Hp : method delete_request ≠ "POST") by discriminate.
  split; [repeat split; assumption|].
  pose proof (other_method_405 sample_parse (scripted []) sample_env delete_request
                eq_refl Hg Hp) as (H1 & H2 & _ & H4).
  exact (conj H1 (conj H2 H4)).
Defined.

(** C4 as stated fails: GitHub's 404 comes with the body
    [{"message":"Not Found"}], and what the caller gets is the handler's
    own envelope, neither that document nor its text. *)
Lemma upstream_payload_counterexample :
  ok not_found = false /\
  sample_parse (text not_found) = Ok not_found_doc /\
  sent (serve sample_parse (scripted [Fulfilled not_found]) sample_env get_request).1 =
    Some (JObj [("error", JStr "GitHub GET failed"); ("status", JStr "Not Found")]) /\
  sent (serve sample_parse (scripted [Fulfilled not_found]) sample_env get_request).1
    ≠ Some not_found_doc /\
  sent (serve sample_parse (scripted [Fulfilled not_found]) sample_env get_request).1
    ≠ Some (JStr (text not_found)).
Proof. repeat split; discriminate. Qed.

Lemma upstream_failure_relayed_witness :
  (valid_config sample_env = true /\ ok not_found = false) /\
  serve sample_parse (scripted [Fulfilled not_found]) sample_env get_request =
    (mkRes 404 ∅ (Some (JObj [("error", JStr "GitHub GET failed");
                              ("status", JStr "Not Found")])),
     [content_fetch sample_env]) /\
  serve sample_parse (scripted [Fulfilled not_found]) sample_env post_rooms =
    (mkRes 404 ∅ (Some (JObj [("error", JStr "Could not fetch file metadata");
                              ("status", JStr "Not Found")])),
     [metadata_fetch sample_env]).
Proof.
  split; [split; reflexivity|].
  pose proof (upstream_failure_relayed sample_parse (scripted [Fulfilled not_found])
                sample_env get_request not_found eq_refl eq_refl) as [Hg _].
  pose proof (upstream_failure_relayed sample_parse (scripted [Fulfilled not_found])
                sample_env post_rooms not_found eq_refl eq_refl) as [_ Hp].
  exact (conj (Hg eq_refl eq_refl) (Hp eq_refl eq_refl)).
Defined.

(** C1 as stated fails: with the metadata fetch answered 404 no PUT is
    issued, even though the remote side would accept one. *)
Lemma post_not_found_counterexample :
  valid_config sample_env = true /\ method post_rooms = "POST" /\
  scripted [Fulfilled not_found; Fulfilled committed] [metadata_fetch sample_env]
    = Fulfilled not_found /\
  status not_found = 404 /\
  (serve sample_parse (scripted [Fulfilled not_found; Fulfilled committed])
     sample_env post_rooms).2 = [metadata_fetch sample_env] /\
  puts (serve sample_parse (scripted [Fulfilled not_found; Fulfilled committed])
          sample_env post_rooms).2 = [].
Proof. repeat split. Qed.

Lemma post_not_found_aborts_witness :
  (valid_config sample_env = true /\ method post_rooms = "POST" /\
   scripted [Fulfilled not_found; Fulfilled committed] [metadata_fetch sample_env]
     = Fulfilled not_found /\
   status not_found = 404) /\
  puts (serve sample_parse (scripted [Fulfilled not_found; Fulfilled committed])
          sample_env post_rooms).2 = [] /\
  statusCode (serve sample_parse (scripted [Fulfilled not_found; Fulfilled committed])
                sample_env post_rooms).1 = 404.
Proof.
  split; [repeat split|].
  pose proof (post_not_found_aborts sample_parse
                (scripted [Fulfilled not_found; Fulfilled committed])
                sample_env post_rooms not_found eq_refl eq_refl eq_refl eq_refl)
    as (_ & H2 & H3 & _).
  exact (conj H2 H3).
Defined.

Example rooms_put_wire :
  rq_body (rooms_put "Add rooms") =
  Some ("{" +:+ QuoteJSONString "message" +:+ ":" +:+ QuoteJSONString "Add rooms" +:+ ","
        +:+ QuoteJSONString "content" +:+ ":" +:+ QuoteJSONString rooms_b64 +:+ ","
        +:+ QuoteJSONString "branch" +:+ ":" +:+ QuoteJSONString "main" +:+ ","
        +:+ QuoteJSONString "sha" +:+ ":" +:+ QuoteJSONString "abc123" +:+ "}").
Proof. vm_compute. reflexivity. Qed.

Example post_rooms_calls :
  (serve sample_parse (file_exists committed) sample_env post_rooms).2 =
  [metadata_fetch sample_env; rooms_put "Update data.json via app"].
Proof. vm_compute. reflexivity. Qed.

(** C2 as stated fails: with the metadata fetch answered 200 and the token
    "abc123", a POST without a body issues no PUT at all; and with a 200
    answer whose JSON has no [sha], the PUT goes out without a token. *)
Lemma metadata_token_counterexample :
  (ok found_sha = true /\ sample_parse (text found_sha) = Ok sha_doc /\
   get_prop sha_doc "sha" = Ok (Some (JStr "abc123")) /\
   method post_without_body = "POST" /\
   (serve sample_parse (file_exists committed) sample_env post_without_body).2
     = [metadata_fetch sample_env] /\
   statusCode (serve sample_parse (file_exists committed) sample_env post_without_body).1
     = 500) /\
  (ok found_no_sha = true /\ sample_parse (text found_no_sha) = Ok no_sha_doc /\
   map rq_body (serve sample_parse (scripted [Fulfilled found_no_sha; Fulfilled committed])
                  sample_env post_rooms).2
     = [None; Some (rooms_wire_no_sha "Update data.json via app")]).
Proof. repeat split. Qed.

Lemma metadata_before_put_witness :
  (valid_config sample_env = true /\ method post_rooms = "POST") /\
  (statusCode (serve sample_parse (scripted [Fulfilled not_found]) sample_env post_rooms).1
     = 404 /\
   puts (serve sample_parse (scripted [Fulfilled not_found]) sample_env post_rooms).2 = []) /\
  (∃ rq,
     (serve sample_parse (file_exists committed) sample_env post_rooms).2
       = [metadata_fetch sample_env; rq] /\
     rq_method rq = "PUT" /\
     rq_body rq = Some (rooms_wire "Update data.json via app")).
Proof.
  split; [split; reflexivity|]. split.
  - pose proof (metadata_before_put sample_parse (scripted [Fulfilled not_found])
                  sample_env post_rooms eq_refl eq_refl) as (_ & H & _).
    exact (H not_found eq_refl eq_refl).
  - pose proof (metadata_before_put sample_parse (file_exists committed)
                  sample_env post_rooms eq_refl eq_refl) as (_ & _ & H).
    destruct (H found_sha sha_doc (JStr "abc123") rooms_doc
                eq_refl eq_refl eq_refl eq_refl eq_refl eq_refl) as (rq & H1 & H2 & _ & H4).
    exists rq. exact (conj H1 (conj H2 H4)).
Defined.

Lemma rooms_put_body_witness :
  (valid_config sample_env = true /\ method post_rooms = "POST" /\
   body post_rooms = Some rooms_doc /\
   file_exists committed [metadata_fetch sample_env] = Fulfilled found_sha /\
   ok found_sha = true /\ sample_parse (text found_sha) = Ok sha_doc /\
   get_prop sha_doc "sha" = Ok (Some (JStr "abc123"))) /\
  ∃ rq,
    (serve sample_parse (file_exists committed) sample_env post_rooms).2
      = [metadata_fetch sample_env; rq] /\
    rq_method rq = "PUT" /\
    rq_body rq = Some (rooms_wire "Update data.json via app") /\
    base64_decode rooms_b64 = Some rooms_text.
Proof.
  split; [repeat split|].
  exact (rooms_put_body sample_parse (file_exists committed) sample_env post_rooms
           found_sha sha_doc eq_refl eq_refl eq_refl eq_refl eq_refl eq_refl eq_refl).
Defined.

Lemma rooms_put_issued message :
  rooms_put message ∈ puts [metadata_fetch sample_env; rooms_put message].
Proof. apply list_elem_of_singleton. reflexivity. Qed.

(** C7 as stated fails: a PUT answered 502 with an HTML body makes the
    handler answer 500, not 502. *)
Lemma put_unparseable_counterexample :
  puts (serve sample_parse (file_exists bad_gateway) sample_env post_rooms).2
    = [rooms_put "Update data.json via app"] /\
  file_exists bad_gateway [metadata_fetch sample_env; rooms_put "Update data.json via app"]
    = Fulfilled bad_gateway /\
  ok bad_gateway = false /\ status bad_gateway = 502 /\
  statusCode (serve sample_parse (file_exists bad_gateway) sample_env post_rooms).1 = 500.
Proof. repeat split. Qed.

Lemma put_outcome_witness :
  (method post_rooms = "POST" /\
   rooms_put "Update data.json via app"
     ∈ puts (serve sample_parse (file_exists committed) sample_env post_rooms).2 /\
   file_exists committed [metadata_fetch sample_env; rooms_put "Update data.json via app"]
     = Fulfilled committed) /\
  (serve sample_parse (file_exists committed) sample_env post_rooms).1 =
    mkRes 200 ∅ (Some (JObj [("message", JStr saved_message); ("result", commit_doc)])).
Proof.
  assert (Hin : rooms_put "Update data.json via app"
                ∈ puts (serve sample_parse (file_exists committed) sample_env post_rooms).2).
  { rewrite post_rooms_calls. apply rooms_put_issued. }
  split; [repeat split; exact Hin|].
  exact (put_outcome sample_parse (file_exists committed) sample_env post_rooms
           (rooms_put "Update data.json via app") committed eq_refl Hin eq_refl).
Defined.

(** C8 as stated fails: a [message] parameter that is supplied but empty
    is not used, the commit message is the default one. *)
Lemma empty_message_counterexample :
  query_message (query post_rooms_empty_message) = Some (QStr "") /\
  puts (serve sample_parse (file_exists committed) sample_env post_rooms_empty_message).2 =
    [put_fetch sample_env (rooms_body "Update data.json via app")] /\
  field (rooms_body "Update data.json via app") "message"
    = Some (JStr "Update data.json via app") /\
  field (rooms_body "Update data.json via app") "message" ≠ Some (JStr "").
Proof. repeat split. discriminate. Qed.

Lemma put_body_fields_witness :
  (method post_rooms_with_message = "POST" /\
   rooms_put "Add rooms"
     ∈ puts (serve sample_parse (file_exists committed) sample_env
               post_rooms_with_message).2) /\
  rq_body (rooms_put "Add rooms") = Some (rooms_wire "Add rooms") /\
  ∃ b m token,
    body post_rooms_with_message = Some b /\
    rq_body (rooms_put "Add rooms") =
      Some (compact (JObj ([("message", m);
                            ("content", JStr (toString_base64 (bytes_of (pretty2 b))));
                            ("branch", JStr "main")] ++ token))) /\
    m = JStr "Add rooms".
Proof.
  assert (Hin : rooms_put "Add rooms"
                ∈ puts (serve sample_parse (file_exists committed) sample_env
                          post_rooms_with_message).2).
  { apply rooms_put_issued. }
  split; [repeat split; exact Hin|]. split; [reflexivity|].
  destruct (put_body_fields sample_parse (file_exists committed) sample_env
              post_rooms_with_message (rooms_put "Add rooms") eq_refl Hin)
    as (b & m & token & Hb & E & _ & M & _).
  exists b, m, token. exact (conj Hb (conj E (M _ _ eq_refl))).
Defined.

(** C10 as stated fails: when the request has no body no PUT is produced,
    whether the metadata JSON lacks a [sha] or has a truthy one. *)
Lemma no_body_no_put_counterexample :
  method post_without_body = "POST" /\
  (ok found_no_sha = true /\ sample_parse (text found_no_sha) = Ok no_sha_doc /\
   get_prop no_sha_doc "sha" = Ok None /\
   puts (serve sample_parse (scripted [Fulfilled found_no_sha; Fulfilled committed])
           sample_env post_without_body).2 = [] /\
   statusCode (serve sample_parse (scripted [Fulfilled found_no_sha; Fulfilled committed])
                 sample_env post_without_body).1 = 500) /\
  (ok found_sha = true /\ truthy (Some (JStr "abc123")) = true /\
   puts (serve sample_parse (file_exists committed) sample_env post_without_body).2 = []).
Proof. repeat split. Qed.

Lemma put_sha_iff_truthy_witness :
  (valid_config sample_env = true /\ method post_rooms = "POST" /\
   scripted [Fulfilled found_no_sha; Fulfilled committed] [metadata_fetch sample_env]
     = Fulfilled found_no_sha /\
   ok found_no_sha = true /\
   file_exists committed [metadata_fetch sample_env] = Fulfilled found_sha /\
   ok found_sha = true) /\
  (∃ rq,
     (serve sample_parse (scripted [Fulfilled found_no_sha; Fulfilled committed])
        sample_env post_rooms).2 = [metadata_fetch sample_env; rq] /\
     rq_method rq = "PUT" /\
     rq_body rq = Some (rooms_wire_no_sha "Update data.json via app")) /\
  (∃ pb meta sha,
     rq_body (rooms_put "Update data.json via app") = Some (compact pb) /\
     sample_parse (text found_sha) = Ok meta /\ get_prop meta "sha" = Ok sha /\
     has_field pb "sha" = truthy sha /\
     (truthy sha = true -> field pb "sha" = sha)).
Proof.
  split; [repeat split|]. split.
  - pose proof (put_sha_iff_truthy sample_parse
                  (scripted [Fulfilled found_no_sha; Fulfilled committed])
                  sample_env post_rooms found_no_sha eq_refl eq_refl eq_refl eq_refl)
      as [_ H].
    exact (H no_sha_doc None rooms_doc eq_refl eq_refl eq_refl eq_refl).
  - pose proof (put_sha_iff_truthy sample_parse (file_exists committed)
                  sample_env post_rooms found_sha eq_refl eq_refl eq_refl eq_refl)
      as [H _].
    apply H. rewrite post_rooms_calls. apply rooms_put_issued.
Defined.

(** * Further properties of the handler *)

Section Paths.

Variable JSON_parse : string -> result json.
Variable world : remote.

(** The two paths that make no call. *)
Lemma serve_missing env req :
  valid_config env = false ->
  serve JSON_parse world env req =
  (mkRes 500 ∅
     (Some (JObj [("error", JStr "Missing GITHUB_TOKEN or GITHUB_REPO environment variables")])),
   []).
Proof.
  intros Hc. unfold serve, handler.
  assert (negb (truthy_str (env !! "GITHUB_TOKEN"))
          || negb (truthy_str (env !! "GITHUB_REPO")) = true) as ->; [|reflexivity].
  unfold valid_config in Hc. apply andb_false_iff in Hc as [-> | ->];
    [reflexivity | apply orb_true_r].
Qed.

Lemma serve_other_method env req :
  valid_config env = true -> method req ≠ "GET" -> method req ≠ "POST" ->
  serve JSON_parse world env req =
  (mkRes 405 (<["Allow" := "GET,POST"]> ∅) (Some (JObj [("error", JStr "Method not allowed")])),
   []).
Proof.
  intros Hc Hg Hp. unfold serve. rewrite (handler_configured _ _ _ _ Hc).
  apply String.eqb_neq in Hg, Hp. rewrite Hg, Hp. reflexivity.
Qed.

Lemma puts_content env : puts [content_fetch env] = [].
Proof. reflexivity. Qed.

Lemma puts_metadata env : puts [metadata_fetch env] = [].
Proof. reflexivity. Qed.

Lemma puts_metadata_put env pb :
  puts [metadata_fetch env; put_fetch env pb] = [put_fetch env pb].
Proof. reflexivity. Qed.

Lemma not_ok_not_200 r : ok r = false -> status r ≠ 200.
Proof. unfold ok. intros H E. rewrite E in H. discriminate H. Qed.

End Paths.

(** Splits an invocation into its four kinds (unconfigured, GET, POST,
    other method) and rewrites it to what that kind does. *)
Ltac serve_paths P w env req :=
  let Hc := fresh "Hc" in
  let Hg := fresh "Hg" in
  let Hp := fresh "Hp" in
  destruct (valid_config env) eqn:Hc;
  [ destruct (String.eqb (method req) "GET") eqn:Hg;
    [ apply String.eqb_eq in Hg; rewrite (serve_get P w env req Hc Hg)
    | destruct (String.eqb (method req) "POST") eqn:Hp;
      [ apply String.eqb_eq in Hp; rewrite (serve_post P w env req Hc Hp)
      | apply String.eqb_neq in Hg; apply String.eqb_neq in Hp;
        rewrite (serve_other_method P w env req Hc Hg Hp) ] ]
  | rewrite (serve_missing P w env req Hc) ].

(** Follows every branch of the invocation in the goal. *)
Ltac branches :=
  unfold server_error, upstream_error; cbv zeta; cbn [fst snd];
  repeat (match goal with
          | |- context [match ?x with _ => _ end] => destruct x eqn:?
          end; cbv zeta; cbn [fst snd]).

Section Extras.

Variable JSON_parse : string -> result json.
Variable world : remote.

(** X1: when the last outbound call of an invocation is rejected (a
    network failure), the answer is 500 with the generic envelope carrying
    the failure's message; this holds for the content fetch, the metadata
    fetch and the PUT alike. *)
Theorem rejected_call_500 env req msg :
  (serve JSON_parse world env req).2 ≠ [] ->
  world (serve JSON_parse world env req).2 = Rejected msg ->
  (serve JSON_parse world env req).1 =
    mkRes 500 ∅ (Some (JObj [("error", JStr "Server error"); ("detail", JStr msg)])).
Proof.
  serve_paths JSON_parse world env req; branches; intros Hne Hw;
    try (exfalso; apply Hne; reflexivity);
    try congruence.
Qed.

(** X2: an invocation makes at most two outbound calls, at most one of
    them a PUT; a GET request makes at most one call and never a PUT. *)
Theorem at_most_two_calls env req :
  (length (serve JSON_parse world env req).2 <= 2)%nat /\
  (length (puts (serve JSON_parse world env req).2) <= 1)%nat /\
  (method req = "GET" ->
   (length (serve JSON_parse world env req).2 <= 1)%nat /\
   puts (serve JSON_parse world env req).2 = []).
Proof.
  serve_paths JSON_parse world env req; branches;
    rewrite ?puts_content, ?puts_metadata, ?puts_metadata_put;
    change (puts []) with (@nil fetch_request);
    repeat split; try (cbn [length]; lia); try reflexivity; try congruence.
Qed.

(** X3: an invocation makes outbound calls exactly when the configuration
    is valid and the method is GET or POST, and its first call is then a
    bodiless GET of the configured file on the configured branch. *)
Theorem calls_iff_configured env req :
  ((serve JSON_parse world env req).2 ≠ [] <->
   valid_config env = true /\ (method req = "GET" \/ method req = "POST")) /\
  (∀ rq, head (serve JSON_parse world env req).2 = Some rq ->
     rq_method rq = "GET" /\ rq_url rq = apiBase env /\ rq_body rq = None).
Proof.
  serve_paths JSON_parse world env req; branches; (split; [split|]);
    try (intros _; split; [reflexivity | (left; assumption) || (right; assumption)]);
    try (intros _; discriminate);
    try (intros H; exfalso; apply H; reflexivity);
    try (intros [? [? | ?]]; congruence);
    try (intros rq [= <-]; repeat split);
    try (intros rq [=]).
Qed.

(** X4: a PUT is only ever issued for a POST request that has a body, under
    valid configuration; it goes to the configured file's URL, without a
    query string, and carries a body declared as JSON. *)
Theorem put_only_for_post env req rq :
  rq ∈ puts (serve JSON_parse world env req).2 ->
  method req = "POST" /\ valid_config env = true /\ is_Some (body req) /\
  rq_url rq = putUrl env /\ is_Some (rq_body rq) /\
  ("Content-Type", "application/json") ∈ rq_headers rq.
Proof.
  serve_paths JSON_parse world env req; branches;
    rewrite ?puts_content, ?puts_metadata, ?puts_metadata_put;
    change (puts []) with (@nil fetch_request);
    intros H; try (inversion H; fail);
    apply list_elem_of_singleton in H as ->;
    (destruct (body req) as [b|] eqn:Hb; [|discriminate]);
    repeat split; try assumption; try reflexivity;
    try (eexists; reflexivity).
  do 2 (apply elem_of_cons; right). apply elem_of_cons. left. reflexivity.
Qed.

(** X5: every outbound call carries the configured, non-empty access token
    in its [Authorization] header, and asks for a GitHub media type. *)
Theorem calls_authenticated env req rq :
  rq ∈ (serve JSON_parse world env req).2 ->
  ∃ token,
    env !! "GITHUB_TOKEN" = Some token /\ token ≠ "" /\
    ("Authorization", "token " +:+ token) ∈ rq_headers rq /\
    (("Accept", "application/vnd.github.v3.raw") ∈ rq_headers rq \/
     ("Accept", "application/vnd.github.v3+json") ∈ rq_headers rq).
Proof.
  intros Hin.
  assert (Hc : valid_config env = true).
  { destruct (valid_config env) eqn:Hc; [reflexivity|].
    rewrite (serve_missing JSON_parse world env req Hc) in Hin. inversion Hin. }
  assert (Htok : ∃ token, env !! "GITHUB_TOKEN" = Some token /\ token ≠ "").
  { unfold valid_config in Hc. apply andb_true_iff in Hc as [Ht _].
    destruct (env !! "GITHUB_TOKEN") as [[|c s]|]; try discriminate.
    exists (String c s). split; [reflexivity | discriminate]. }
  destruct Htok as (token & Htok & Hne). exists token. split; [exact Htok|].
  split; [exact Hne|].
  assert (Hrq : rq = content_fetch env \/ rq = metadata_fetch env \/
                ∃ pb, rq = put_fetch env pb).
  { revert Hin. serve_paths JSON_parse world env req; branches; intros Hin;
      repeat match goal with
             | H : _ ∈ _ :: _ |- _ => apply elem_of_cons in H as [-> | H]
             | H : _ ∈ [] |- _ => inversion H
             end; eauto. }
  destruct Hrq as [-> | [-> | (pb & ->)]];
    unfold content_fetch, metadata_fetch, put_fetch, authorization; cbn [rq_headers];
    rewrite Htok; cbn [template]; (split; [apply elem_of_cons; left; reflexivity|]).
  - left. apply elem_of_cons. right. apply elem_of_cons. left. reflexivity.
  - right. apply elem_of_cons. right. apply elem_of_cons. left. reflexivity.
  - right. apply elem_of_cons. right. apply elem_of_cons. left. reflexivity.
Qed.

(** X6: the status of the answer is 200, 405 or 500, or else the
    non-success status of the answer to the last outbound call. *)
Theorem status_taxonomy env req :
  statusCode (serve JSON_parse world env req).1 = 200 \/
  statusCode (serve JSON_parse world env req).1 = 405 \/
  statusCode (serve JSON_parse world env req).1 = 500 \/
  ∃ r, world (serve JSON_parse world env req).2 = Fulfilled r /\ ok r = false /\
       statusCode (serve JSON_parse world env req).1 = status r.
Proof.
  serve_paths JSON_parse world env req; branches;
    first [ left; reflexivity
          | right; left; reflexivity
          | right; right; left; reflexivity
          | right; right; right; eexists;
            split; [first [reflexivity | eassumption]
                   | split; [eassumption | reflexivity]] ].
Qed.

(** The shape of the answer, once all the calls have settled. *)
Lemma answer_shape env req :
  ∃ v, sent (serve JSON_parse world env req).1 = Some v /\
       (is_object v = true \/
        (method req = "GET" /\ statusCode (serve JSON_parse world env req).1 = 200)).
Proof.
  serve_paths JSON_parse world env req; branches;
    eexists; (split; [reflexivity|]);
    first [ left; reflexivity | right; split; [assumption | reflexivity] ].
Qed.

(** X8: the only response header the handler ever sets is [Allow], and it
    sets it only when it rejects the method, with 405 and no outbound call. *)
Theorem headers_only_allow env req :
  headers (serve JSON_parse world env req).1 = ∅ \/
  (headers (serve JSON_parse world env req).1 = <["Allow" := "GET,POST"]> ∅ /\
   statusCode (serve JSON_parse world env req).1 = 405 /\
   (serve JSON_parse world env req).2 = [] /\
   method req ≠ "GET" /\ method req ≠ "POST").
Proof.
  serve_paths JSON_parse world env req; branches;
    first [ left; reflexivity | right; repeat split; assumption ].
Qed.

(** X9: a POST is answered 200 only after its PUT was issued and answered
    with a success status and a JSON body; the answer then carries the
    confirmation message and that body. *)
Theorem saved_only_after_put env req :
  method req = "POST" ->
  statusCode (serve JSON_parse world env req).1 = 200 ->
  ∃ pb putR j,
    (serve JSON_parse world env req).2 = [metadata_fetch env; put_fetch env pb] /\
    world [metadata_fetch env; put_fetch env pb] = Fulfilled putR /\
    ok putR = true /\ JSON_parse (text putR) = Ok j /\
    sent (serve JSON_parse world env req).1 =
      Some (JObj [("message", JStr saved_message); ("result", j)]).
Proof.
  intros Hm. serve_paths JSON_parse world env req; branches; cbn [statusCode];
    intros H200; try discriminate; try congruence;
    try (exfalso; eapply not_ok_not_200; eassumption).
  eexists _, _, _. repeat split; eassumption.
Qed.

(** X10: a POST without a body never issues a PUT and is never answered
    200. *)
Theorem post_without_body_never_writes env req :
  method req = "POST" -> body req = None ->
  puts (serve JSON_parse world env req).2 = [] /\
  statusCode (serve JSON_parse world env req).1 ≠ 200.
Proof.
  intros Hm Hb. serve_paths JSON_parse world env req; rewrite ?Hb;
    cbn [JSON_stringify Buffer_from]; branches; cbn [statusCode];
    rewrite ?puts_metadata; change (puts []) with (@nil fetch_request);
    try congruence;
    (split; [reflexivity|]); try discriminate.
  all: eapply not_ok_not_200; eassumption.
Qed.

(** X11: when the metadata fetch of a POST succeeds but its body is not
    JSON, or is the JSON [null], the handler answers 500 with the error's
    message and issues no PUT. *)
Theorem metadata_unreadable_500 env req r :
  valid_config env = true -> method req = "POST" ->
  world [metadata_fetch env] = Fulfilled r -> ok r = true ->
  (∀ e, JSON_parse (text r) = Throw e ->
     serve JSON_parse world env req =
       (mkRes 500 ∅ (Some (JObj [("error", JStr "Server error"); ("detail", JStr e)])),
        [metadata_fetch env])) /\
  (JSON_parse (text r) = Ok JNull ->
     serve JSON_parse world env req =
       (mkRes 500 ∅
          (Some (JObj [("error", JStr "Server error");
                       ("detail", JStr "Cannot read properties of null (reading 'sha')")])),
        [metadata_fetch env])).
Proof.
  intros Hc Hm Hw Hok. rewrite (serve_post JSON_parse world env req Hc Hm), Hw, Hok.
  split; [intros e -> | intros ->]; reflexivity.
Qed.

(** X12: what a GET does depends on the configuration and the remote side
    only: the request's query and body are ignored. *)
Theorem get_ignores_query_and_body env req1 req2 :
  method req1 = "GET" -> method req2 = "GET" ->
  serve JSON_parse world env req1 = serve JSON_parse world env req2.
Proof.
  intros H1 H2. destruct (valid_config env) eqn:Hc.
  - rewrite (serve_get JSON_parse world env req1 Hc H1),
            (serve_get JSON_parse world env req2 Hc H2). reflexivity.
  - rewrite !(serve_missing JSON_parse world env _ Hc). reflexivity.
Qed.

End Extras.

(** ** The URLs of the outbound calls *)

Lemma append_cons (x : ascii) (a b : string) : String x a +:+ b = String x (a +:+ b).
Proof. reflexivity. Qed.

Lemma append_nil (b : string) : "" +:+ b = b.
Proof. reflexivity. Qed.

Lemma append_assoc (a b c : string) : (a +:+ b) +:+ c = a +:+ (b +:+ c).
Proof.
  induction a as [|x a IH]; [reflexivity|].
  change (String x ((a +:+ b) +:+ c) = String x (a +:+ (b +:+ c))). rewrite IH. reflexivity.
Qed.

Lemma chars_append (a b : string) : chars (a +:+ b) = chars a ++ chars b.
Proof.
  induction a as [|x a IH]; [reflexivity|].
  change (x :: chars (a +:+ b) = x :: (chars a ++ chars b)). rewrite IH. reflexivity.
Qed.

(** What [encodeURIComponent] does with each of the 256 bytes, checked by
    running it: a byte kept as it is differs from [%]; the two digits of an
    escaped byte are unreserved characters and read back as its halves. *)
Lemma encode_bytes_checked :
  forallb (λ n,
    let c := ascii_of_N n in
    let hi := hex_digit true (n / 16) in
    let lo := hex_digit true (n mod 16) in
    if uri_unreserved c then negb (Ascii.eqb c "%")
    else uri_unreserved hi && uri_unreserved lo
         && match hex_value hi, hex_value lo with
            | Some h, Some l => (h =? n / 16)%N && (l =? n mod 16)%N
            | _, _ => false
            end)
    (map N.of_nat (seq 0 256)) = true.
Proof. vm_compute. reflexivity. Qed.

Lemma encode_byte (c : ascii) :
  let n := N_of_ascii c in
  if uri_unreserved c then c ≠ "%"%char
  else uri_unreserved (hex_digit true (n / 16)) = true /\
       uri_unreserved (hex_digit true (n mod 16)) = true /\
       hex_value (hex_digit true (n / 16)) = Some (n / 16)%N /\
       hex_value (hex_digit true (n mod 16)) = Some (n mod 16)%N.
Proof.
  intros n. pose proof encode_bytes_checked as H.
  rewrite forallb_forall in H. specialize (H n).
  assert (Hin : In n (map N.of_nat (seq 0 256))).
  { apply in_map_iff. exists (N.to_nat n). split; [lia|]. apply in_seq.
    pose proof (N_ascii_bounded c). subst n. lia. }
  apply H in Hin. cbv zeta in Hin. subst n. rewrite ascii_N_embedding in Hin.
  destruct (uri_unreserved c).
  - intros ->. discriminate Hin.
  - apply andb_true_iff in Hin as [Hin Hv]. apply andb_true_iff in Hin as [-> ->].
    destruct (hex_value _) as [h|]; [|discriminate].
    destruct (hex_value _) as [l|]; [|discriminate].
    apply andb_true_iff in Hv as [Hh Hl].
    apply N.eqb_eq in Hh as ->. apply N.eqb_eq in Hl as ->. repeat split.
Qed.

Lemma encoded_chars (s : string) :
  Forall (λ c, uri_unreserved c = true \/ c = "%"%char) (chars (encodeURIComponent s)).
Proof.
  induction s as [|c s IH]; [constructor|].
  cbn [encodeURIComponent]. rewrite chars_append. apply Forall_app. split; [|exact IH].
  pose proof (encode_byte c) as Hc. cbv zeta in Hc.
  destruct (uri_unreserved c) eqn:Hu.
  - change (chars (String c "")) with [c]. constructor; [left; exact Hu | constructor].
  - destruct Hc as (Hh & Hl & _).
    change (chars (percent_encode c))
      with ["%"%char; hex_digit true (N_of_ascii c / 16); hex_digit true (N_of_ascii c mod 16)].
    constructor; [right; reflexivity|]. constructor; [left; exact Hh|].
    constructor; [left; exact Hl | constructor].
Qed.

Lemma decode_encode (s : string) : percent_decode (encodeURIComponent s) = Some s.
Proof.
  induction s as [|c s IH]; [reflexivity|].
  cbn [encodeURIComponent]. pose proof (encode_byte c) as Hc. cbv zeta in Hc.
  destruct (uri_unreserved c).
  - rewrite append_cons, append_nil. cbn [percent_decode].
    destruct (Ascii.eqb c "%") eqn:E; [apply Ascii.eqb_eq in E; contradiction|].
    rewrite IH. reflexivity.
  - destruct Hc as (_ & _ & Hh & Hl). unfold percent_encode.
    rewrite !append_cons, append_nil.
    cbn [percent_decode Ascii.eqb Bool.eqb]. rewrite Hh, Hl, IH.
    cbn [mbind option_bind]. f_equal. f_equal.
    replace (N_of_ascii c / 16 * 16 + N_of_ascii c mod 16)%N with (N_of_ascii c);
      [apply ascii_N_embedding|].
    pose proof (N.div_mod (N_of_ascii c) 16). lia.
Qed.

Lemma encodeURIComponent_inj (s t : string) :
  encodeURIComponent s = encodeURIComponent t -> s = t.
Proof.
  intros H. apply (f_equal percent_decode) in H. rewrite !decode_encode in H.
  congruence.
Qed.

(** Two texts without [?] that agree once a [?] and a rest are appended
    are equal, and so are the rests. *)
Lemma split_at_question (x1 x2 y1 y2 : string) :
  "?"%char ∉ chars x1 -> "?"%char ∉ chars x2 ->
  x1 +:+ String "?" y1 = x2 +:+ String "?" y2 -> x1 = x2 /\ y1 = y2.
Proof.
  revert x2. induction x1 as [|a x1 IH]; intros [|b x2] H1 H2 E; cbn in E.
  - injection E as <-. split; reflexivity.
  - injection E as <- _. exfalso. apply H2. apply elem_of_cons. left. reflexivity.
  - injection E as -> _. exfalso. apply H1. apply elem_of_cons. left. reflexivity.
  - injection E as <- E. destruct (IH x2) as [<- <-]; [| |exact E|split; reflexivity].
    + intros Hin. apply H1. apply elem_of_cons. right. exact Hin.
    + intros Hin. apply H2. apply elem_of_cons. right. exact Hin.
Qed.

Lemma encoded_no_question (s : string) : "?"%char ∉ chars (encodeURIComponent s).
Proof.
  intros Hin. pose proof (encoded_chars s) as H.
  rewrite Forall_forall in H. destruct (H _ Hin) as [Hu | E]; discriminate.
Qed.

(** X13: the text [encodeURIComponent] produces holds only unreserved
    characters and [%]: no [/], [?], [#], [&] or [=], so a configured file
    path or branch stays one path segment, or one query value, of the URL. *)
Theorem encoded_component_charset (s : string) :
  Forall (λ c, (uri_unreserved c = true \/ c = "%"%char) /\ c ∉ chars "/?#&=")
         (chars (encodeURIComponent s)).
Proof.
  eapply Forall_impl; [apply encoded_chars|].
  intros c H. split; [exact H|]. intros Hin.
  destruct H as [Hu | ->].
  - repeat (apply elem_of_cons in Hin as [-> | Hin]; [discriminate Hu|]). inversion Hin.
  - repeat (apply elem_of_cons in Hin as [Hin | Hin]; [discriminate Hin|]). inversion Hin.
Qed.

(** X14: percent-decoding an encoded component gives the text back; hence
    different file paths, or branch names, are never encoded alike. *)
Theorem percent_decode_encode (s : string) :
  percent_decode (encodeURIComponent s) = Some s /\
  ∀ t, encodeURIComponent s = encodeURIComponent t -> s = t.
Proof. split; [apply decode_encode | apply encodeURIComponent_inj]. Qed.

(** X15: for one repository, the URL of the content and metadata fetches
    determines the configured file path and branch: two configurations
    with the same URL read the same file on the same branch. *)
Theorem apiBase_determines_file_and_branch (env1 env2 : gmap string string) :
  env1 !! "GITHUB_REPO" = env2 !! "GITHUB_REPO" ->
  apiBase env1 = apiBase env2 ->
  filePath_of env1 = filePath_of env2 /\ branch_of env1 = branch_of env2.
Proof.
  intros Hrepo E. unfold apiBase, putUrl in E. rewrite Hrepo in E.
  rewrite !append_assoc in E.
  do 3 apply String.app_inj in E.
  change ("?ref=" +:+ ?x) with (String "?" ("ref=" +:+ x)) in E.
  apply split_at_question in E as [Ep Eb]; [|apply encoded_no_question..].
  apply String.app_inj in Eb.
  split; apply encodeURIComponent_inj; assumption.
Qed.

(** X16: when the file path and the branch are not configured, or are
    empty, the handler reads [data.json] on [main], and writes to
    [data.json] with [main] as the branch of the commit. *)
Theorem default_file_and_branch (env : gmap string string) (repo : string) :
  env !! "GITHUB_REPO" = Some repo ->
  env !! "GITHUB_FILE_PATH" = None \/ env !! "GITHUB_FILE_PATH" = Some "" ->
  env !! "BRANCH" = None \/ env !! "BRANCH" = Some "" ->
  apiBase env = "https://api.github.com/repos/" +:+ repo +:+ "/contents/data.json?ref=main" /\
  putUrl env = "https://api.github.com/repos/" +:+ repo +:+ "/contents/data.json" /\
  branch_of env = "main".
Proof.
  intros Hrepo Hpath Hbranch. unfold apiBase, putUrl, filePath_of, branch_of.
  rewrite Hrepo.
  assert (or_default (env !! "GITHUB_FILE_PATH") "data.json" = "data.json") as ->
    by (destruct Hpath as [-> | ->]; reflexivity).
  assert (or_default (env !! "BRANCH") "main" = "main") as ->
    by (destruct Hbranch as [-> | ->]; reflexivity).
  change (encodeURIComponent "data.json") with "data.json".
  change (encodeURIComponent "main") with "main".
  cbn [template]. rewrite !append_assoc. repeat split.
Qed.

(** ** The content of the PUT *)

Lemma base64_char_shape (n : N) :
  base64_char n ∈ base64_alphabet \/ base64_char n = "="%char.
Proof.
  unfold base64_char.
  destruct (nth_in_or_default (N.to_nat n) base64_alphabet "="%char) as [H | H].
  - left. apply list_elem_of_In. exact H.
  - right. exact H.
Qed.

Lemma base64_groups_shape (buf : list N) :
  Forall (λ c, c ∈ base64_alphabet \/ c = "="%char) (base64_groups buf).
Proof.
  induction buf as [|a|a b|a b c rest IH] using list_by_triples;
    cbn [base64_groups]; repeat (constructor; [apply base64_char_shape || (right; reflexivity)|]);
    [constructor | constructor | constructor | exact IH].
Qed.

Lemma base64_groups_length (buf : list N) :
  length (base64_groups buf) = (4 * ((length buf + 2) / 3))%nat.
Proof.
  induction buf as [|a|a b|a b c rest IH] using list_by_triples; try reflexivity.
  cbn [base64_groups length]. rewrite IH.
  replace (S (S (S (length rest))) + 2)%nat with ((length rest + 2) + 1 * 3)%nat by lia.
  rewrite Nat.div_add by lia. lia.
Qed.

Lemma length_string_of_list (l : list ascii) :
  String.length (string_of_list_ascii l) = length l.
Proof. induction l as [|c l IH]; [reflexivity|]. cbn. rewrite IH. reflexivity. Qed.

(** The base64 characters are written as they are in a JSON string. *)
Lemma base64_chars_plain_checked :
  forallb (λ c, String.eqb (quote_char c) (String c "")) (base64_alphabet ++ ["="%char]) = true.
Proof. vm_compute. reflexivity. Qed.

Lemma base64_char_plain (c : ascii) :
  c ∈ base64_alphabet \/ c = "="%char -> quote_char c = String c "".
Proof.
  intros H. pose proof base64_chars_plain_checked as Hall.
  rewrite forallb_forall in Hall. apply String.eqb_eq, Hall, in_app_iff.
  destruct H as [H | ->]; [left; apply list_elem_of_In; exact H | right; left; reflexivity].
Qed.

(** X17: the base64 text of a buffer has four characters for every three
    bytes, rounded up; it is made of the 64 digits and [=] only, and so is
    written into the JSON body of the PUT without any escape. *)
Theorem base64_text_shape (buf : list N) :
  String.length (toString_base64 buf) = (4 * ((length buf + 2) / 3))%nat /\
  Forall (λ c, c ∈ base64_alphabet \/ c = "="%char) (chars (toString_base64 buf)) /\
  QuoteJSONString (toString_base64 buf)
    = String dquote (toString_base64 buf +:+ String dquote "").
Proof.
  unfold toString_base64. split; [|split].
  - rewrite length_string_of_list. apply base64_groups_length.
  - unfold chars. rewrite list_ascii_of_string_of_list_ascii. apply base64_groups_shape.
  - unfold QuoteJSONString. do 2 f_equal.
    pose proof (base64_groups_shape buf) as H.
    induction H as [|c l Hc _ IH]; [reflexivity|].
    cbn [string_of_list_ascii quote_chars]. rewrite (base64_char_plain c Hc), IH.
    reflexivity.
Qed.

Section RoundTrip.

Variable JSON_parse : string -> result json.
Variable world : remote.

(** X18: what a POST writes reads back unchanged: when the remote side
    serves the text that the PUT content of a document decodes to, and
    [JSON.parse] inverts the pretty-printing of that document, a GET
    answers 200 with the document. *)
Theorem write_then_read env req r (b : json) :
  valid_config env = true -> method req = "GET" ->
  world [content_fetch env] = Fulfilled r -> ok r = true ->
  base64_decode (toString_base64 (bytes_of (pretty2 b))) = Some (text r) ->
  JSON_parse (pretty2 b) = Ok b ->
  serve JSON_parse world env req = (mkRes 200 ∅ (Some b), [content_fetch env]).
Proof.
  intros Hc Hm Hw Hok Hdec Hparse.
  rewrite base64_decode_encode in Hdec. injection Hdec as Ht.
  rewrite (serve_get JSON_parse world env req Hc Hm), Hw, Hok, <- Ht, Hparse.
  reflexivity.
Qed.

End RoundTrip.

(** ** When a call never settles *)

Lemma run_until_hang_cases {A} (w : hanging_remote) (p : io A) (calls : list fetch_request) :
  match run_until_hang w calls p with
  | (Some a, issued) => run (settle w) calls p = (a, issued)
  | (None, issued) => issued ≠ [] /\ w issued = None
  end.
Proof.
  revert calls. induction p as [a | rq k IH]; intros calls; cbn [run_until_hang run].
  - reflexivity.
  - destruct (w (calls ++ [rq])) as [o|] eqn:Hw.
    + specialize (IH o (calls ++ [rq])).
      replace (settle w (calls ++ [rq])) with o by (unfold settle; rewrite Hw; reflexivity).
      exact IH.
    + split; [|exact Hw]. intros E. apply app_eq_nil in E as [_ E]. discriminate E.
Qed.

Section Hanging.

Variable JSON_parse : string -> result json.
Variable world : hanging_remote.

(** X7: an invocation whose outbound calls all settle answers with a JSON
    body, an object except possibly for the document returned by a
    successful GET; an invocation leaves the request unanswered only when
    the last call it issued never settles. *)
Theorem answers_when_calls_settle env req :
  (∀ res calls, serve_until_hang JSON_parse world env req = (Some res, calls) ->
     ∃ v, sent res = Some v /\
          (is_object v = true \/ (method req = "GET" /\ statusCode res = 200))) /\
  (∀ calls, serve_until_hang JSON_parse world env req = (None, calls) ->
     calls ≠ [] /\ world calls = None).
Proof.
  pose proof (run_until_hang_cases world (handler JSON_parse env req fresh_res) []) as H.
  unfold serve_until_hang. split.
  - intros res calls E. rewrite E in H.
    pose proof (answer_shape JSON_parse (settle world) env req) as S.
    unfold serve in S. rewrite H in S. exact S.
  - intros calls E. rewrite E in H. exact H.
Qed.

End Hanging.

(** ** The further properties on concrete invocations *)

Example nested_path_url :
  apiBase nested_env =
  "https://api.github.com/repos/faizan/carepro-accommodation/contents/data%2Frooms%3F.json?ref=main".
Proof. vm_compute. reflexivity. Qed.

Lemma rejected_call_500_witness :
  ((serve sample_parse (scripted []) sample_env get_request).2 ≠ [] /\
   scripted [] (serve sample_parse (scripted []) sample_env get_request).2
     = Rejected "fetch failed") /\
  (serve sample_parse (scripted []) sample_env get_request).1 =
    mkRes 500 ∅ (Some (JObj [("error", JStr "Server error"); ("detail", JStr "fetch failed")])).
Proof.
  assert (Hne : (serve sample_parse (scripted []) sample_env get_request).2 ≠ [])
    by discriminate.
  split; [split; [exact Hne | reflexivity]|].
  exact (rejected_call_500 sample_parse (scripted []) sample_env get_request "fetch failed"
           Hne eq_refl).
Defined.

Lemma at_most_two_calls_witness :
  method get_request = "GET" /\
  (length (serve sample_parse (file_exists committed) sample_env get_request).2 <= 1)%nat /\
  puts (serve sample_parse (file_exists committed) sample_env get_request).2 = [].
Proof.
  split; [reflexivity|].
  pose proof (at_most_two_calls sample_parse (file_exists committed) sample_env get_request)
    as (_ & _ & H).
  exact (H eq_refl).
Defined.

Lemma calls_iff_configured_witness :
  (valid_config sample_env = true /\ method post_rooms = "POST" /\
   head (serve sample_parse (file_exists committed) sample_env post_rooms).2
     = Some (metadata_fetch sample_env)) /\
  (serve sample_parse (file_exists committed) sample_env post_rooms).2 ≠ [] /\
  rq_url (metadata_fetch sample_env) = apiBase sample_env.
Proof.
  split; [repeat split|].
  pose proof (calls_iff_configured sample_parse (file_exists committed) sample_env post_rooms)
    as [[_ H1] H2].
  split; [exact (H1 (conj eq_refl (or_intror eq_refl)))|].
  exact (proj1 (proj2 (H2 (metadata_fetch sample_env) eq_refl))).
Defined.

Lemma put_only_for_post_witness :
  rooms_put "Update data.json via app"
    ∈ puts (serve sample_parse (file_exists committed) sample_env post_rooms).2 /\
  method post_rooms = "POST" /\ is_Some (body post_rooms) /\
  rq_url (rooms_put "Update data.json via app") = putUrl sample_env.
Proof.
  assert (Hin : rooms_put "Update data.json via app"
                ∈ puts (serve sample_parse (file_exists committed) sample_env post_rooms).2).
  { rewrite post_rooms_calls. apply rooms_put_issued. }
  split; [exact Hin|].
  pose proof (put_only_for_post sample_parse (file_exists committed) sample_env post_rooms
                (rooms_put "Update data.json via app") Hin) as (H1 & _ & H3 & H4 & _).
  exact (conj H1 (conj H3 H4)).
Defined.

Lemma calls_authenticated_witness :
  metadata_fetch sample_env
    ∈ (serve sample_parse (file_exists committed) sample_env post_rooms).2 /\
  ∃ token,
    sample_env !! "GITHUB_TOKEN" = Some token /\ token ≠ "" /\
    ("Authorization", "token " +:+ token) ∈ rq_headers (metadata_fetch sample_env).
Proof.
  assert (Hin : metadata_fetch sample_env
                ∈ (serve sample_parse (file_exists committed) sample_env post_rooms).2).
  { rewrite post_rooms_calls. apply elem_of_cons. left. reflexivity. }
  split; [exact Hin|].
  destruct (calls_authenticated sample_parse (file_exists committed) sample_env post_rooms
              (metadata_fetch sample_env) Hin) as (token & H1 & H2 & H3 & _).
  exists token. exact (conj H1 (conj H2 H3)).
Defined.

Lemma saved_only_after_put_witness :
  (method post_rooms = "POST" /\
   statusCode (serve sample_parse (file_exists committed) sample_env post_rooms).1 = 200) /\
  ∃ pb putR j,
    (serve sample_parse (file_exists committed) sample_env post_rooms).2
      = [metadata_fetch sample_env; put_fetch sample_env pb] /\
    file_exists committed [metadata_fetch sample_env; put_fetch sample_env pb]
      = Fulfilled putR /\
    ok putR = true /\ sample_parse (text putR) = Ok j /\
    sent (serve sample_parse (file_exists committed) sample_env post_rooms).1 =
      Some (JObj [("message", JStr saved_message); ("result", j)]).
Proof.
  split; [split; reflexivity|].
  exact (saved_only_after_put sample_parse (file_exists committed) sample_env post_rooms
           eq_refl eq_refl).
Defined.

Lemma post_without_body_never_writes_witness :
  (method post_without_body = "POST" /\ body post_without_body = None) /\
  puts (serve sample_parse (file_exists committed) sample_env post_without_body).2 = [] /\
  statusCode (serve sample_parse (file_exists committed) sample_env post_without_body).1
    ≠ 200.
Proof.
  split; [split; reflexivity|].
  exact (post_without_body_never_writes sample_parse (file_exists committed) sample_env
           post_without_body eq_refl eq_refl).
Defined.

Lemma metadata_unreadable_500_witness :
  (valid_config sample_env = true /\ method post_rooms = "POST" /\
   ok html_metadata = true /\ ok null_metadata = true /\
   parse_null_too (text html_metadata) = Throw "Unexpected token in JSON" /\
   parse_null_too (text null_metadata) = Ok JNull) /\
  serve parse_null_too (scripted [Fulfilled html_metadata]) sample_env post_rooms =
    (mkRes 500 ∅ (Some (JObj [("error", JStr "Server error");
                              ("detail", JStr "Unexpected token in JSON")])),
     [metadata_fetch sample_env]) /\
  serve parse_null_too (scripted [Fulfilled null_metadata]) sample_env post_rooms =
    (mkRes 500 ∅
       (Some (JObj [("error", JStr "Server error");
                    ("detail", JStr "Cannot read properties of null (reading 'sha')")])),
     [metadata_fetch sample_env]).
Proof.
  split; [repeat split|]. split.
  - exact (proj1 (metadata_unreadable_500 parse_null_too (scripted [Fulfilled html_metadata])
                    sample_env post_rooms html_metadata eq_refl eq_refl eq_refl eq_refl)
             "Unexpected token in JSON" eq_refl).
  - exact (proj2 (metadata_unreadable_500 parse_null_too (scripted [Fulfilled null_metadata])
                    sample_env post_rooms null_metadata eq_refl eq_refl eq_refl eq_refl)
             eq_refl).
Defined.

Lemma get_ignores_query_and_body_witness :
  (method get_request = "GET" /\ method get_with_query = "GET") /\
  serve sample_parse serves_rooms sample_env get_request =
  serve sample_parse serves_rooms sample_env get_with_query.
Proof.
  split; [split; reflexivity|].
  exact (get_ignores_query_and_body sample_parse serves_rooms sample_env
           get_request get_with_query eq_refl eq_refl).
Defined.

Lemma percent_decode_encode_witness :
  encodeURIComponent "data/rooms?.json" = encodeURIComponent "data/rooms?.json" /\
  percent_decode (encodeURIComponent "data/rooms?.json") = Some "data/rooms?.json".
Proof.
  split; [reflexivity|].
  exact (proj1 (percent_decode_encode "data/rooms?.json")).
Defined.

Lemma apiBase_determines_file_and_branch_witness :
  (sample_env !! "GITHUB_REPO" = main_env !! "GITHUB_REPO" /\
   apiBase sample_env = apiBase main_env) /\
  filePath_of sample_env = filePath_of main_env /\ branch_of sample_env = branch_of main_env.
Proof.
  split; [split; reflexivity|].
  exact (apiBase_determines_file_and_branch sample_env main_env eq_refl eq_refl).
Defined.

Lemma default_file_and_branch_witness :
  (sample_env !! "GITHUB_REPO" = Some "faizan/carepro-accommodation" /\
   sample_env !! "GITHUB_FILE_PATH" = None /\ sample_env !! "BRANCH" = None) /\
  apiBase sample_env =
    "https://api.github.com/repos/faizan/carepro-accommodation/contents/data.json?ref=main".
Proof.
  split; [repeat split|].
  exact (proj1 (default_file_and_branch sample_env "faizan/carepro-accommodation"
                  eq_refl (or_introl eq_refl) (or_introl eq_refl))).
Defined.

Lemma write_then_read_witness :
  (valid_config sample_env = true /\ method get_request = "GET" /\
   serves_rooms [content_fetch sample_env] = Fulfilled (mkResponse 200 "OK" rooms_text) /\
   base64_decode (toString_base64 (bytes_of (pretty2 rooms_doc))) = Some rooms_text /\
   parse_rooms_text (pretty2 rooms_doc) = Ok rooms_doc) /\
  serve parse_rooms_text serves_rooms sample_env get_request =
    (mkRes 200 ∅ (Some rooms_doc), [content_fetch sample_env]).
Proof.
  assert (Hd : base64_decode (toString_base64 (bytes_of (pretty2 rooms_doc)))
               = Some (text (mkResponse 200 "OK" rooms_text))) by (vm_compute; reflexivity).
  assert (Hp : parse_rooms_text (pretty2 rooms_doc) = Ok rooms_doc)
    by (vm_compute; reflexivity).
  split; [repeat split; assumption|].
  exact (write_then_read parse_rooms_text serves_rooms sample_env get_request
           (mkResponse 200 "OK" rooms_text) rooms_doc eq_refl eq_refl eq_refl eq_refl Hd Hp).
Defined.

Lemma answers_when_calls_settle_witness :
  (serve_until_hang parse_rooms_text (settling serves_rooms) sample_env get_request
     = (Some (mkRes 200 ∅ (Some rooms_doc)), [content_fetch sample_env]) /\
   serve_until_hang sample_parse hangs_on_put sample_env post_rooms
     = (None, [metadata_fetch sample_env; rooms_put "Update data.json via app"])) /\
  (∃ v, sent (mkRes 200 ∅ (Some rooms_doc)) = Some v /\
        (is_object v = true \/
         (method get_request = "GET" /\ statusCode (mkRes 200 ∅ (Some rooms_doc)) = 200))) /\
  hangs_on_put [metadata_fetch sample_env; rooms_put "Update data.json via app"] = None.
Proof.
  split; [split; reflexivity|]. split.
  - exact (proj1 (answers_when_calls_settle parse_rooms_text (settling serves_rooms)
                    sample_env get_request) _ _ eq_refl).
  - exact (proj2 (proj2 (answers_when_calls_settle sample_parse hangs_on_put
                           sample_env post_rooms) _ eq_refl)).
Defined.
